(** * pycacher: a shallow embedding of [main.py]

    The two classes of the repository, [PycacheEntry] and [Pycache], are
    embedded as pure functions that pass the mutated object explicitly:
    a method [m(self, args)] that mutates [self] and returns or raises
    becomes a function from [self] and [args] to the new [self] and an
    [outcome].  The wall clock ([math.floor(time.time() * 1000)]) is an
    explicit argument [now].  Client code (the classes of the cached
    values) is a parameter, the [runtime]. *)

From stdpp Require Import gmap strings.
From Stdlib Require Import ZArith.

Local Open Scope Z_scope.
Set Warnings "-register-all".

(** * Python values *)

(** Names of client classes (and of the runtime's classes that are not one
    of the seven scalar types: [NoneType], [method], [Snowflake]). *)
Definition cname := string.

(** The attributes the cache looks up on a value. *)
Inductive attr_name := a_update | a_serialize | a_value | a_snowflake.

(** A pyflake [Snowflake]: the attributes [__init__] of [PycacheEntry]
    reads, [snowflake.snowflake] and [snowflake.string()]. *)
Module Snowflake.
Record t := { snowflake : Z; string : String.string }.
End Snowflake.

(** Type objects: the seven types [is_immutable] lists, and classes by name. *)
Inductive pytype :=
| t_int | t_str | t_float | t_complex | t_bool | t_tuple | t_frozenset
| t_class (c : cname).

#[global] Instance pytype_eq_dec : EqDecision pytype.
Proof. solve_decision. Defined.

(** Values.  A float is its binary64 bit pattern, a complex number the bit
    patterns of its two parts.  [VObj c st] is an instance of the client
    class [c] whose instance state is [st]; the class may derive from one
    of the scalar types (a namedtuple, an [IntEnum]), which the [runtime]
    below tells.  [VMethod recv name] is the bound method [recv.name]. *)
Inductive pyval :=
| VNone
| VBool (b : bool)
| VInt (n : Z)
| VFloat (bits : Z)
| VComplex (re im : Z)
| VStr (s : string)
| VTuple (xs : list pyval)
| VFrozenset (xs : list pyval)
| VSnowflake (sf : Snowflake.t)
| VMethod (recv : pyval) (name : attr_name)
| VObj (c : cname) (st : pyval).

(** [type(v)]. *)
Definition type_of (v : pyval) : pytype :=
  match v with
  | VNone => t_class "NoneType"
  | VBool _ => t_bool
  | VInt _ => t_int
  | VFloat _ => t_float
  | VComplex _ _ => t_complex
  | VStr _ => t_str
  | VTuple _ => t_tuple
  | VFrozenset _ => t_frozenset
  | VSnowflake _ => t_class "Snowflake"
  | VMethod _ _ => t_class "method"
  | VObj c _ => t_class c
  end.

(** [isinstance(v, T)] for a value [v] whose type is [type_of v] and no
    more: [bool] is a subclass of [int]; nothing else among the scalar
    types is a subclass of another. *)
Definition is_a (v : pyval) (T : pytype) : bool :=
  match v, T with
  | VBool _, t_int => true
  | _, _ => bool_decide (type_of v = T)
  end.

(** Keys of the [_cache] dict: an [int] or a [str].  [True] and [1] are the
    same dict key. *)
Inductive key := KInt (n : Z) | KStr (s : string).

#[global] Instance key_eq_dec : EqDecision key.
Proof. solve_decision. Defined.

#[global] Instance key_countable : Countable key.
Proof.
  refine (inj_countable'
    (λ k, match k with KInt n => inl n | KStr s => inr s end)
    (λ x, match x with inl n => KInt n | inr s => KStr s end) _).
  by intros [].
Defined.

Definition as_key (v : pyval) : option key :=
  match v with
  | VInt n => Some (KInt n)
  | VBool b => Some (KInt (if b then 1 else 0))
  | VStr s => Some (KStr s)
  | _ => None
  end.

(** * Exceptions *)

(** The exceptions the two classes raise, one constructor per [raise] of
    [main.py], the two the interpreter raises on the paths modelled here,
    and the exceptions of client code. *)
Inductive pyexn :=
| NotFound (idx : key)              (* AttributeError, Pycache.get *)
| DuplicateKey (idx : Z)            (* AttributeError, Pycache.add *)
| NoMatches                         (* KeyError, Pycache.find *)
| BadIdentifierType (got : pytype)  (* TypeError, Pycache.remove *)
| NotUpdatable                      (* AttributeError, update: attribute is not callable *)
| NoUpdateMethod                    (* AttributeError, update: no attribute *)
| UnserializableEntry (present : bool)
                                    (* AttributeError, serialize: attribute not callable
                                       ([present = true]) or absent *)
| NoAttribute (ty : pytype) (name : attr_name)
                                    (* AttributeError of the interpreter: no such attribute *)
| NotCallable (ty : pytype)         (* TypeError of the interpreter: object is not callable *)
| ClientError (is_exception : bool) (payload : pyval).
                                    (* raised by client code; [is_exception] tells whether
                                       its class derives from [Exception] *)

(** [isinstance(e, Exception)], what [except Exception] catches. *)
Definition is_Exception (e : pyexn) : bool :=
  match e with
  | ClientError b _ => b
  | _ => true
  end.

Inductive outcome (A : Type) :=
| Return (a : A)
| Raise (e : pyexn).
Arguments Return {A} a.
Arguments Raise {A} e.

(** * Client code *)

(** An attribute is a plain value or something callable. *)
Inductive slot (F : Type) :=
| Plain (x : pyval)
| Callable (f : F).
Arguments Plain {F} x.
Arguments Callable {F} f.

(** What the cache asks of the Python runtime and of the client's classes.
    [rt_call T x] is the call [T(x)] of a type object, which builds a value
    and leaves the stored object as it is.  The other fields
    take the class name and the instance state of a [VObj]:
    [rt_bool] is [bool(obj)];
    [rt_update] is the attribute [obj.update], which, called with a list of
    arguments, gives the state the call leaves the instance in and what the
    call returned or raised;
    [rt_serialize] is the attribute [obj.serialize], an observer;
    [rt_value] is the attribute [obj.value];
    [rt_base] tells whether the class derives from one of the seven scalar
    types, and then gives the scalar the instance is as an instance of
    that type (a namedtuple its tuple, an [IntEnum] member its int).
    Objects can share mutable state: [rt_after_update other recv args] is
    the state in which the call [recv.update( *args)] leaves another
    object, [other], that was built from [recv.serialize()] before the
    call; it is [other] itself when the two share nothing. *)
Record runtime := {
  rt_call : pytype → pyval → outcome pyval;
  rt_bool : cname → pyval → bool;
  rt_update : cname → pyval → option (slot (list pyval → pyval * outcome pyval));
  rt_serialize : cname → pyval → option (slot (outcome pyval));
  rt_value : cname → pyval → option pyval;
  rt_base : cname → pyval → option pyval;
  rt_after_update : pyval → pyval → list pyval → pyval
}.

(** [isinstance(v, T)], for [T] one of the seven scalar types (the only
    types the code passes): an instance of a client class is an instance of
    its class and of what the scalar it derives from is an instance of. *)
Definition isinstance (rt : runtime) (v : pyval) (T : pytype) : bool :=
  match v with
  | VObj c st =>
      bool_decide (t_class c = T)
      || match rt_base rt c st with
         | Some base => is_a base T
         | None => false
         end
  | _ => is_a v T
  end.

(** The key under which [self._cache.get(v)] looks a value up: an instance
    of a class deriving from [int] or [str] hashes and compares as its
    scalar. *)
Definition dict_key (rt : runtime) (v : pyval) : option key :=
  match v with
  | VObj c st => rt_base rt c st ≫= as_key
  | _ => as_key v
  end.

(** [bool(v)]. *)
Definition truthy (rt : runtime) (v : pyval) : bool :=
  match v with
  | VNone => false
  | VBool b => b
  | VInt n => negb (n =? 0)
  | VFloat bits => negb (Z.land bits (2 ^ 63 - 1) =? 0)
  | VComplex re im =>
      negb (Z.land re (2 ^ 63 - 1) =? 0) || negb (Z.land im (2 ^ 63 - 1) =? 0)
  | VStr s => match s with EmptyString => false | _ => true end
  | VTuple xs | VFrozenset xs => match xs with [] => false | _ => true end
  | VSnowflake _ | VMethod _ _ => true
  | VObj c st => rt_bool rt c st
  end.

(** [getattr(v, 'update', None)]: none of the built-in values of the model
    has the attribute. *)
Definition getattr_update (rt : runtime) (v : pyval)
  : option (slot (list pyval → pyval * outcome pyval)) :=
  match v with
  | VObj c st =>
      match rt_update rt c st with
      | Some (Callable f) => Some (Callable (λ args, let '(st', r) := f args in (VObj c st', r)))
      | Some (Plain x) => Some (Plain x)
      | None => None
      end
  | _ => None
  end.

(** [getattr(v, 'serialize', None)]. *)
Definition getattr_serialize (rt : runtime) (v : pyval) : option (slot (outcome pyval)) :=
  match v with
  | VObj c st => rt_serialize rt c st
  | _ => None
  end.

(** The expression [v.value]. *)
Definition getattr_value (rt : runtime) (v : pyval) : outcome pyval :=
  match v with
  | VObj c st =>
      match rt_value rt c st with
      | Some x => Return x
      | None => Raise (NoAttribute (t_class c) a_value)
      end
  | _ => Raise (NoAttribute (type_of v) a_value)
  end.

(** * class PycacheEntry *)

Module PycacheEntry.

(** The attributes [__init__] sets.  [_client], the back reference to the
    cache, is read by no method and is left out.  [_max_age] is [None]
    when the client passes Python's [None]. *)
Record t := {
  _snowflake : Snowflake.t;
  _cached_time : Z;
  _fetched_time : Z;
  _max_age : option Z;
  _value_instance : pytype;
  idx : Z;
  idx_string : string;
  value : pyval
}.

Definition __init__ (now : Z) (snowflake : Snowflake.t) (entry : pyval)
    (fetched_time : Z) (max_age : option Z) (entry_instance : pytype) : t :=
  {| _snowflake := snowflake;
     _cached_time := now;
     _fetched_time := fetched_time;
     _max_age := max_age;
     _value_instance := entry_instance;
     idx := Snowflake.snowflake snowflake;
     idx_string := Snowflake.string snowflake;
     value := entry |}.

(** [setattr(self, 'value', v)]. *)
Definition setattr_value (self : t) (v : pyval) : t :=
  {| _snowflake := _snowflake self;
     _cached_time := _cached_time self;
     _fetched_time := _fetched_time self;
     _max_age := _max_age self;
     _value_instance := _value_instance self;
     idx := idx self;
     idx_string := idx_string self;
     value := v |}.

(** [setattr(self, '_fetched_time', fetched_time)]. *)
Definition setattr_fetched_time (self : t) (fetched_time : Z) : t :=
  {| _snowflake := _snowflake self;
     _cached_time := _cached_time self;
     _fetched_time := fetched_time;
     _max_age := _max_age self;
     _value_instance := _value_instance self;
     idx := idx self;
     idx_string := idx_string self;
     value := value self |}.

Definition is_immutable (self : t) : bool :=
  if bool_decide (_value_instance self = t_int)
     || bool_decide (_value_instance self = t_str)
     || bool_decide (_value_instance self = t_float)
     || bool_decide (_value_instance self = t_complex)
     || bool_decide (_value_instance self = t_bool)
     || bool_decide (_value_instance self = t_tuple)
     || bool_decide (_value_instance self = t_frozenset)
  then true
  else false.

(** [now] is the value of [math.floor(time.time() * 1000)] at the call. *)
Definition is_stale (now : Z) (self : t) : bool :=
  match _max_age self with
  | None => false
  | Some max_age =>
      if max_age =? 0 then false
      else if now - _fetched_time self >? max_age then true
      else false
  end.

(** The test of the second branch of [update]: [isinstance] against the
    seven scalar types, in the order of the source. *)
Definition is_scalar (rt : runtime) (entry : pyval) : bool :=
  isinstance rt entry t_str || isinstance rt entry t_int || isinstance rt entry t_bool
  || isinstance rt entry t_float || isinstance rt entry t_complex
  || isinstance rt entry t_tuple || isinstance rt entry t_frozenset.

Section WithRuntime.
Variable rt : runtime.

Definition serialize (self : t) : outcome pyval :=
  if is_immutable self then Return (value self)
  else
    match getattr_serialize rt (value self) with
    | Some (Callable call) => call
    | Some (Plain _) => Raise (UnserializableEntry true)
    | None => Raise (UnserializableEntry false)
    end.

(** [update] returns the entry as the call leaves it, and what the call
    returned or raised.  The value of a mutable entry is a reference: what
    [value.update] does to the object is seen through [self.value], so the
    state the call leaves is stored back, except where line 176 rebinds
    [self.value] to the clone, in the state the call left the clone in. *)
Definition update (self : t) (fetched_time : Z) (entry : pyval) : t * outcome pyval :=
  if is_immutable self then
    (setattr_fetched_time (setattr_value self entry) fetched_time, Return VNone)
  else if is_scalar rt entry then
    (setattr_fetched_time (setattr_value self entry) fetched_time, Return VNone)
  else
    match getattr_update rt (value self) with
    | Some (Callable call) =>
        match serialize self with
        | Raise e => (self, Raise e)
        | Return serialized =>
            match rt_call rt (_value_instance self) serialized with
            | Raise e => (self, Raise e)
            | Return clone =>
                let '(mutated, r) := call [entry] in
                match r with
                | Return res =>
                    (setattr_fetched_time (setattr_value self mutated) fetched_time,
                     Return res)
                | Raise e =>
                    if is_Exception e then
                      (setattr_value self (rt_after_update rt clone (value self) [entry]),
                       Raise e)
                    else (setattr_value self mutated, Raise e)
                end
            end
        end
    | Some (Plain _) => (self, Raise NotUpdatable)
    | None => (self, Raise NoUpdateMethod)
    end.

End WithRuntime.
End PycacheEntry.

(** * class Pycache *)

(** A [Pycache] is its [_cache] dict; [_client] is read by no method.  The
    wrappers of [dict] methods that no other method calls are left out. *)
Module Pycache.

Abbreviation t := (gmap key PycacheEntry.t).

(** [self._cache.get(idx)] is the entry or [None]; an entry is truthy, the
    class defines neither [__bool__] nor [__len__]. *)
Definition get (self : t) (idx : key) : outcome pyval :=
  match self !! idx with
  | Some entry => Return (PycacheEntry.value entry)
  | None => Raise (NotFound idx)
  end.

Definition length (self : t) : nat := size self.

(** The loop of [find]: [res.update([(idx, entry.value)])] for every item
    that meets the condition.  The condition returns [True] or [False]
    (lines 299 and 305 of the source). *)
Definition find_loop (self : t) (condition : PycacheEntry.t → bool) : gmap key pyval :=
  map_fold (λ idx entry res,
              if condition entry then <[idx := PycacheEntry.value entry]> res else res)
           ∅ self.

Definition find (self : t) (condition : PycacheEntry.t → bool) : outcome (gmap key pyval) :=
  let res := find_loop self condition in
  if bool_decide (0 < size res)%nat then Return res
  else Raise NoMatches.

Definition stale (now : Z) (self : t) : outcome (gmap key pyval) :=
  let is_stale entry := PycacheEntry.is_stale now entry in
  find self is_stale.

Definition fresh (now : Z) (self : t) : outcome (gmap key pyval) :=
  let is_fresh entry := negb (PycacheEntry.is_stale now entry) in
  find self is_fresh.

Definition mutable (self : t) : outcome (gmap key pyval) :=
  let is_mutable entry := negb (PycacheEntry.is_immutable entry) in
  find self is_mutable.

Definition immutable (self : t) : outcome (gmap key pyval) :=
  let is_immutable entry := PycacheEntry.is_immutable entry in
  find self is_immutable.

Section WithRuntime.
Variable rt : runtime.

(** [now] is the clock at the call, read by [PycacheEntry.__init__]. *)
Definition add (now : Z) (self : t) (snowflake : Snowflake.t) (entry : pyval)
    (fetched_time : Z) (max_age : option Z) (entry_instance : pytype)
  : t * outcome pyval :=
  let res := PycacheEntry.__init__ now snowflake entry fetched_time max_age entry_instance in
  match get self (KInt (PycacheEntry.idx res)) with
  | Raise e => (self, Raise e)
  | Return found =>
      if negb (truthy rt found) then
        let self' := <[KInt (PycacheEntry.idx res) := res]> self in
        match get self' (KInt (PycacheEntry.idx res)) with
        | Raise e => (self', Raise e)
        | Return stored => (self', getattr_value rt stored)
        end
      else (self, Raise (DuplicateKey (PycacheEntry.idx res)))
  end.

(** [self.get(idx).update(entry, fetched_time)]: [self.get(idx)] is the
    stored value, so the call is the value's own [update], with two
    arguments.  The entry holds the same object, and sees what the call
    did to it. *)
Definition update (self : t) (idx : key) (entry : pyval) (fetched_time : Z)
  : t * outcome pyval :=
  match get self idx with
  | Raise e => (self, Raise e)
  | Return found =>
      match getattr_update rt found with
      | None => (self, Raise (NoAttribute (type_of found) a_update))
      | Some (Plain x) => (self, Raise (NotCallable (type_of x)))
      | Some (Callable call) =>
          let '(mutated, r) := call [entry; VInt fetched_time] in
          (alter (λ e, PycacheEntry.setattr_value e mutated) idx self, r)
      end
  end.

(** [hasattr(snowflake, 'snowflake')]: of the values of the model, a
    pyflake [Snowflake] has the attribute. *)
Definition hasattr_snowflake (snowflake : pyval) : option Z :=
  match snowflake with
  | VSnowflake sf => Some (Snowflake.snowflake sf)
  | _ => None
  end.

(** The [if self.get(k): self._cache.pop(k)] of both branches of [remove]:
    the dict it leaves and the exception of [self.get], if any. *)
Definition pop_if_found (self : t) (k : key) : t * option pyexn :=
  match get self k with
  | Raise e => (self, Some e)
  | Return found => if truthy rt found then (delete k self, None) else (self, None)
  end.

Definition remove (self : t) (snowflake : pyval) : t * outcome pyval :=
  let '(self', raised) :=
    match hasattr_snowflake snowflake with
    | Some id => pop_if_found self (KInt id)
    | None =>
        if isinstance rt snowflake t_str || isinstance rt snowflake t_int then
          match dict_key rt snowflake with
          | Some k => pop_if_found self k
          | None => (self, None)
          end
        else (self, None)
    end in
  match raised with
  | Some e => (self', Raise e)
  | None =>
      let snowflake_type := type_of snowflake in
      (self', Raise (BadIdentifierType snowflake_type))
  end.

End WithRuntime.

Definition str (rt : runtime) (self : t) : outcome (gmap key pyval) :=
  let is_str entry := isinstance rt (PycacheEntry.value entry) t_str in
  find self is_str.

Definition int (rt : runtime) (self : t) : outcome (gmap key pyval) :=
  let is_int entry := isinstance rt (PycacheEntry.value entry) t_int in
  find self is_int.

Definition complex (rt : runtime) (self : t) : outcome (gmap key pyval) :=
  let is_complex entry := isinstance rt (PycacheEntry.value entry) t_complex in
  find self is_complex.

Definition bool (rt : runtime) (self : t) : outcome (gmap key pyval) :=
  let is_bool entry := isinstance rt (PycacheEntry.value entry) t_bool in
  find self is_bool.

Definition frozenset (rt : runtime) (self : t) : outcome (gmap key pyval) :=
  let is_frozenset entry := isinstance rt (PycacheEntry.value entry) t_frozenset in
  find self is_frozenset.

Definition float (rt : runtime) (self : t) : outcome (gmap key pyval) :=
  let is_float entry := isinstance rt (PycacheEntry.value entry) t_float in
  find self is_float.

Definition tuple (rt : runtime) (self : t) : outcome (gmap key pyval) :=
  let is_tuple entry := isinstance rt (PycacheEntry.value entry) t_tuple in
  find self is_tuple.

End Pycache.

(** The mapping a view yields, a failure read as the empty mapping. *)
Definition result_set (r : outcome (gmap key pyval)) : gmap key pyval :=
  match r with
  | Return m => m
  | Raise _ => ∅
  end.

(** The entries of a cache that meet a condition, as a mapping from the
    identifier to the stored value. *)
Definition matching (self : gmap key PycacheEntry.t) (condition : PycacheEntry.t → bool)
  : gmap key pyval :=
  omap (λ entry, if condition entry then Some (PycacheEntry.value entry) else None) self.

(** The type [S] is [T] or one of the scalar types that derive from [T]:
    [bool] derives from [int]. *)
Definition derives_from (S T : pytype) : Prop :=
  S = T ∨ (T = t_int ∧ S = t_bool).

(** [v] is an instance of the scalar type [T], as [isinstance] has it: its
    type is [T] or a subclass of [T], which is [bool] for [int] or the
    class of an object that derives from [T]. *)
Definition instance_of (rt : runtime) (v : pyval) (T : pytype) : Prop :=
  derives_from (type_of v) T
  ∨ ∃ c st base, v = VObj c st ∧ rt_base rt c st = Some base
                 ∧ derives_from (type_of base) T.

(** What a view by type yields: the mapping from the identifier to the
    stored value of the entries whose value is an instance of [T], which is
    not empty, or the no-matches error when no entry has such a value. *)
Definition view_of (rt : runtime) (T : pytype) (self : gmap key PycacheEntry.t)
    (r : outcome (gmap key pyval)) : Prop :=
  match r with
  | Return m =>
      m ≠ ∅
      ∧ ∀ k v, m !! k = Some v
               ↔ ∃ entry, self !! k = Some entry ∧ PycacheEntry.value entry = v
                          ∧ instance_of rt v T
  | Raise e =>
      e = NoMatches
      ∧ ∀ k entry, self !! k = Some entry → ¬ instance_of rt (PycacheEntry.value entry) T
  end.

(** * A client for the examples *)

(** The [update] of the counter classes below.  The state is the count.
    [IncrementBy(k)] adds [k] and returns the new count; a negative [k]
    is refused with a [ValueError], after the count was changed.
    [Interrupt(k)] changes the count and raises [KeyboardInterrupt], which
    does not derive from [Exception]. *)
Definition counter_update (st : pyval) (args : list pyval) : pyval * outcome pyval :=
  match st, args with
  | VInt n, [VObj c (VInt k)] =>
      if String.eqb c "IncrementBy" then
        if k <? 0 then (VInt (n + k), Raise (ClientError true (VStr "ValueError")))
        else (VInt (n + k), Return (VInt (n + k)))
      else if String.eqb c "Interrupt" then
        (VInt (n + k), Raise (ClientError false (VStr "KeyboardInterrupt")))
      else (st, Raise (ClientError true (VStr "TypeError")))
  | _, _ => (st, Raise (ClientError true (VStr "TypeError")))
  end.

(** The [update] of [Bag] below.  The state is the tuple of the items of
    the list the bag keeps; [update(x)] appends [x] to the list and then
    raises a [ValueError]. *)
Definition bag_update (st : pyval) (args : list pyval) : pyval * outcome pyval :=
  match st, args with
  | VTuple items, [x] => (VTuple (items ++ [x]), Raise (ClientError true (VStr "ValueError")))
  | _, _ => (st, Raise (ClientError true (VStr "TypeError")))
  end.

(** Eight client classes.
    [Counter]: [update] as above, [serialize()] returns the count and
    [Counter(n)] is the counter of count [n].
    [Tally]: as [Counter], but [Tally(n)] starts from zero whatever [n] is.
    [Mute]: [update] as above, no [serialize].
    [Opaque]: [update] as above, [serialize] is a string, not a method.
    [Static]: [update] is the integer 5, not a method.
    [Bag]: [serialize()] returns the list the bag keeps, and [Bag(items)]
    keeps the list it is given: a bag built from [serialize()] shares its
    list with the bag it was serialized from, and sees what that bag's
    [update] appends.
    [Point]: a namedtuple, a class deriving from [tuple]; the state is the
    tuple.
    Any other class has neither attribute and derives from no scalar type. *)
Definition demo_rt : runtime :=
  {| rt_call T x :=
       match T with
       | t_class c =>
           if String.eqb c "Counter" then Return (VObj "Counter" x)
           else if String.eqb c "Tally" then Return (VObj "Tally" (VInt 0))
           else if String.eqb c "Bag" then
             match x with
             | VObj _ items => Return (VObj "Bag" items)
             | _ => Raise (ClientError true (VStr "TypeError"))
             end
           else Raise (ClientError true (VStr "TypeError"))
       | _ => Raise (ClientError true (VStr "TypeError"))
       end;
     rt_bool _ _ := true;
     rt_update c st :=
       if String.eqb c "Counter" || String.eqb c "Tally"
          || String.eqb c "Mute" || String.eqb c "Opaque"
       then Some (Callable (counter_update st))
       else if String.eqb c "Bag" then Some (Callable (bag_update st))
       else if String.eqb c "Static" then Some (Plain (VInt 5))
       else None;
     rt_serialize c st :=
       if String.eqb c "Counter" || String.eqb c "Tally" then Some (Callable (Return st))
       else if String.eqb c "Bag" then Some (Callable (Return (VObj "list" st)))
       else if String.eqb c "Opaque" then Some (Plain (VStr "n/a"))
       else None;
     rt_value _ _ := None;
     rt_base c st := if String.eqb c "Point" then Some st else None;
     rt_after_update other recv args :=
       match other, recv with
       | VObj c _, VObj c' st =>
           if String.eqb c "Bag" && String.eqb c' "Bag"
           then VObj "Bag" (bag_update st args).1
           else other
       | _, _ => other
       end |}.

Definition flake (id : Z) : Snowflake.t :=
  {| Snowflake.snowflake := id; Snowflake.string := EmptyString |}.

(** An entry cached and fetched at time 0. *)
Definition entry_of (id : Z) (v : pyval) (max_age : option Z) (T : pytype) : PycacheEntry.t :=
  PycacheEntry.__init__ 0 (flake id) v 0 max_age T.

(** * The [dict] wrappers of class Pycache *)

(** The methods of [Pycache] that hand a call to [self._cache]: the
    constructor, [clear], [pop], [setdefault] and [keys].  They raise the
    [KeyError] of [dict], which is no exception of the two classes.
    [popitem], [values] and [items] depend on the order of insertion, which
    the mapping does not keep, and are not modelled. *)
Module PycacheDict.

Inductive dict_outcome (A : Type) :=
| Ok (a : A)
| KeyError (k : key).
Arguments Ok {A} a.
Arguments KeyError {A} k.

(** [Pycache.__init__]: [self._cache = dict()]. *)
Definition __init__ : gmap key PycacheEntry.t := ∅.

(** [self._cache.clear()] returns [None]. *)
Definition clear (self : gmap key PycacheEntry.t) : gmap key PycacheEntry.t * pyval :=
  (∅, VNone).

(** [self._cache.pop(idx)], without a default: the entry itself is
    returned, not its value. *)
Definition pop (self : gmap key PycacheEntry.t) (idx : key)
  : gmap key PycacheEntry.t * dict_outcome PycacheEntry.t :=
  match self !! idx with
  | Some entry => (delete idx self, Ok entry)
  | None => (self, KeyError idx)
  end.

(** [self._cache.setdefault(prop, val)], for a [val] that is an entry (what
    every other method expects to find in the dict). *)
Definition setdefault (self : gmap key PycacheEntry.t) (prop : key) (val : PycacheEntry.t)
  : gmap key PycacheEntry.t * PycacheEntry.t :=
  match self !! prop with
  | Some entry => (self, entry)
  | None => (<[prop := val]> self, val)
  end.

(** [self._cache.keys()], as a set. *)
Definition keys (self : gmap key PycacheEntry.t) : gset key := dom self.

End PycacheDict.

(** * Sequences of calls *)

(** A call of one of the three methods of [Pycache] that change the cache
    through its entries. *)
Inductive call :=
| call_add (now : Z) (snowflake : Snowflake.t) (entry : pyval) (fetched_time : Z)
    (max_age : option Z) (entry_instance : pytype)
| call_update (idx : key) (entry : pyval) (fetched_time : Z)
| call_remove (snowflake : pyval).

(** The cache a call leaves, whether it returned or raised. *)
Definition after (rt : runtime) (self : gmap key PycacheEntry.t) (c : call)
  : gmap key PycacheEntry.t :=
  match c with
  | call_add now snowflake entry fetched_time max_age entry_instance =>
      (Pycache.add rt now self snowflake entry fetched_time max_age entry_instance).1
  | call_update idx entry fetched_time => (Pycache.update rt self idx entry fetched_time).1
  | call_remove snowflake => (Pycache.remove rt self snowflake).1
  end.

Definition after_all (rt : runtime) (self : gmap key PycacheEntry.t) (cs : list call)
  : gmap key PycacheEntry.t :=
  foldl (after rt) self cs.

(** Every entry is filed under its own identifier. *)
Definition filed_by_idx (self : gmap key PycacheEntry.t) : Prop :=
  ∀ k entry, self !! k = Some entry → k = KInt (PycacheEntry.idx entry).

(** Two entries agree on all that [__init__] fixes for the lifetime of an
    entry: everything but the value and the fetched time. *)
Definition same_identity (a b : PycacheEntry.t) : Prop :=
  PycacheEntry.idx a = PycacheEntry.idx b
  ∧ PycacheEntry.idx_string a = PycacheEntry.idx_string b
  ∧ PycacheEntry._snowflake a = PycacheEntry._snowflake b
  ∧ PycacheEntry._cached_time a = PycacheEntry._cached_time b
  ∧ PycacheEntry._max_age a = PycacheEntry._max_age b
  ∧ PycacheEntry._value_instance a = PycacheEntry._value_instance b.

(** * Properties of [find] *)

Lemma find_loop_lookup (self : gmap key PycacheEntry.t) condition (k : key) :
  Pycache.find_loop self condition !! k
  = self !! k ≫= (λ entry, if condition entry then Some (PycacheEntry.value entry) else None).
Proof.
  unfold Pycache.find_loop. revert k.
  apply (map_fold_weak_ind (λ res m, ∀ k, res !! k = m !! k ≫= _)).
  - intros k. by rewrite !lookup_empty.
  - intros i x m r Hi IH k.
    destruct (decide (i = k)) as [->|Hne].
    + rewrite lookup_insert_eq. simpl. destruct (condition x).
      * by rewrite lookup_insert_eq.
      * by rewrite IH, Hi.
    + rewrite (lookup_insert_ne m) by done.
      destruct (condition x); [rewrite lookup_insert_ne by done|]; apply IH.
Qed.

Lemma find_loop_matching (self : gmap key PycacheEntry.t) condition :
  Pycache.find_loop self condition = matching self condition.
Proof.
  apply map_eq; intros k. unfold matching.
  by rewrite find_loop_lookup, lookup_omap.
Qed.

Lemma find_matching (self : gmap key PycacheEntry.t) condition :
  Pycache.find self condition
  = if decide (matching self condition = ∅) then Raise NoMatches
    else Return (matching self condition).
Proof.
  unfold Pycache.find. rewrite find_loop_matching.
  destruct (decide (matching self condition = ∅)) as [->|Hne].
  - by rewrite map_size_empty.
  - rewrite bool_decide_true; [done|].
    apply map_size_non_empty_iff in Hne. lia.
Qed.

Lemma matching_lookup_Some (self : gmap key PycacheEntry.t) condition k v :
  matching self condition !! k = Some v
  ↔ ∃ entry, self !! k = Some entry ∧ condition entry = true ∧ PycacheEntry.value entry = v.
Proof.
  unfold matching. rewrite lookup_omap. split.
  - destruct (self !! k) as [entry|]; simpl; [|done].
    destruct (condition entry) eqn:Hc; [|done].
    intros [= <-]. by exists entry.
  - intros (entry & -> & Hc & <-). simpl. by rewrite Hc.
Qed.

Lemma matching_empty_iff (self : gmap key PycacheEntry.t) condition :
  matching self condition = ∅
  ↔ ∀ k entry, self !! k = Some entry → condition entry = false.
Proof.
  split.
  - intros Hm k entry Hk.
    destruct (condition entry) eqn:Hc; [|done].
    assert (matching self condition !! k = Some (PycacheEntry.value entry)) as Hl
      by (apply matching_lookup_Some; eauto).
    by rewrite Hm, lookup_empty in Hl.
  - intros Hall. apply map_eq; intros k. rewrite lookup_empty.
    destruct (matching self condition !! k) as [v|] eqn:Hl; [|done].
    apply matching_lookup_Some in Hl as (entry & Hk & Hc & _).
    rewrite (Hall _ _ Hk) in Hc. done.
Qed.

(** * Properties of [get], [add], [update] and [remove] *)

Lemma get_Some (self : gmap key PycacheEntry.t) k entry :
  self !! k = Some entry → Pycache.get self k = Return (PycacheEntry.value entry).
Proof. unfold Pycache.get. by intros ->. Qed.

Lemma get_None (self : gmap key PycacheEntry.t) k :
  self !! k = None → Pycache.get self k = Raise (NotFound k).
Proof. unfold Pycache.get. by intros ->. Qed.

(** C1, as the code has it.  [add] asks [self.get(res.idx)] whether the
    identifier is taken, and [get] raises when it is not: in every cache
    that does not hold the identifier, [add] raises the not-found error of
    [get], inserts nothing, and a [get] that follows raises too. *)
Theorem add_absent_raises_NotFound rt now (self : gmap key PycacheEntry.t)
    sf entry fetched_time max_age T :
  self !! KInt (Snowflake.snowflake sf) = None →
  Pycache.add rt now self sf entry fetched_time max_age T
  = (self, Raise (NotFound (KInt (Snowflake.snowflake sf))))
  ∧ Pycache.get self (KInt (Snowflake.snowflake sf))
    = Raise (NotFound (KInt (Snowflake.snowflake sf))).
Proof.
  intros Habsent. unfold Pycache.add. simpl.
  by rewrite (get_None _ _ Habsent).
Qed.

Lemma add_absent_raises_NotFound_witness :
  Pycache.add demo_rt 0 ∅ (flake 1001) (VStr "hello") 0 (Some 0) t_str
  = (∅, Raise (NotFound (KInt 1001)))
  ∧ Pycache.get ∅ (KInt 1001) = Raise (NotFound (KInt 1001)).
Proof.
  apply (add_absent_raises_NotFound demo_rt 0 ∅ (flake 1001) (VStr "hello") 0 (Some 0) t_str).
  apply lookup_empty.
Defined.

(** C2, as the code has it.  [Pycache.update] calls [update] on what
    [self.get(idx)] returns, the stored value, not on the entry: where the
    stored value has no [update] attribute (every scalar), it raises the
    interpreter's [AttributeError] and the cache is as before, whatever
    [PycacheEntry.update] would have done. *)
Theorem Pycache_update_calls_the_value rt (self : gmap key PycacheEntry.t)
    idx stored entry fetched_time :
  self !! idx = Some stored →
  getattr_update rt (PycacheEntry.value stored) = None →
  Pycache.update rt self idx entry fetched_time
  = (self, Raise (NoAttribute (type_of (PycacheEntry.value stored)) a_update)).
Proof.
  intros Hfound Hattr. unfold Pycache.update.
  by rewrite (get_Some _ _ _ Hfound), Hattr.
Qed.

Lemma Pycache_update_calls_the_value_witness :
  Pycache.update demo_rt {[ KInt 7 := entry_of 7 (VInt 5) (Some 0) t_int ]} (KInt 7) (VInt 9) 100
  = ({[ KInt 7 := entry_of 7 (VInt 5) (Some 0) t_int ]}, Raise (NoAttribute t_int a_update))
  ∧ PycacheEntry.update demo_rt (entry_of 7 (VInt 5) (Some 0) t_int) 100 (VInt 9)
    = (PycacheEntry.__init__ 0 (flake 7) (VInt 9) 100 (Some 0) t_int, Return VNone).
Proof.
  split.
  - apply (Pycache_update_calls_the_value demo_rt _ (KInt 7)
             (entry_of 7 (VInt 5) (Some 0) t_int) (VInt 9) 100).
    + apply lookup_singleton_eq.
    + reflexivity.
  - reflexivity.
Defined.

(** [update] on an identifier the cache does not hold raises the not-found
    error and changes nothing. *)
Lemma Pycache_update_absent rt (self : gmap key PycacheEntry.t) idx entry fetched_time :
  self !! idx = None →
  Pycache.update rt self idx entry fetched_time = (self, Raise (NotFound idx)).
Proof. intros Habsent. unfold Pycache.update. by rewrite (get_None _ _ Habsent). Qed.

(** [remove] has no path that returns: the [raise] of its last line is
    outside the [if]. *)
Lemma remove_never_returns rt (self : gmap key PycacheEntry.t) snowflake :
  ∃ self' e, Pycache.remove rt self snowflake = (self', Raise e).
Proof.
  unfold Pycache.remove.
  destruct (match Pycache.hasattr_snowflake snowflake with Some _ => _ | None => _ end)
    as [self' [e|]]; eauto.
Qed.

(** C3, as the code has it.  [remove] with a raw identifier (an [int] or a
    [str]) whose entry is in the cache, with a truthy value, removes the
    entry and then raises the bad-identifier-type error, although the
    argument is a raw identifier. *)
Theorem remove_present_raises_BadIdentifierType rt (self : gmap key PycacheEntry.t)
    snowflake k stored :
  as_key snowflake = Some k →
  self !! k = Some stored →
  truthy rt (PycacheEntry.value stored) = true →
  Pycache.remove rt self snowflake
  = (delete k self, Raise (BadIdentifierType (type_of snowflake))).
Proof.
  intros Hkey Hfound Htruthy. unfold Pycache.remove, Pycache.pop_if_found.
  destruct snowflake; simplify_eq/=; by rewrite (get_Some _ _ _ Hfound), Htruthy.
Qed.

Lemma remove_present_raises_BadIdentifierType_witness :
  Pycache.remove demo_rt {[ KInt 1001 := entry_of 1001 (VStr "hello") (Some 0) t_str ]} (VInt 1001)
  = (delete (KInt 1001) {[ KInt 1001 := entry_of 1001 (VStr "hello") (Some 0) t_str ]},
     Raise (BadIdentifierType t_int)).
Proof.
  apply (remove_present_raises_BadIdentifierType demo_rt _ (VInt 1001) (KInt 1001)
           (entry_of 1001 (VStr "hello") (Some 0) t_str)).
  - reflexivity.
  - apply lookup_singleton_eq.
  - reflexivity.
Defined.

(** [add] with an identifier the cache holds, under a truthy value, raises
    the duplicate-key error and changes nothing. *)
Lemma add_duplicate_truthy rt now (self : gmap key PycacheEntry.t)
    sf entry fetched_time max_age T stored :
  self !! KInt (Snowflake.snowflake sf) = Some stored →
  truthy rt (PycacheEntry.value stored) = true →
  Pycache.add rt now self sf entry fetched_time max_age T
  = (self, Raise (DuplicateKey (Snowflake.snowflake sf))).
Proof.
  intros Hfound Htruthy. unfold Pycache.add. simpl.
  by rewrite (get_Some _ _ _ Hfound), Htruthy.
Qed.

(** C4, as the code has it.  [add] tests [not self.get(res.idx)], the
    truth value of the stored value: over an entry whose value is falsy
    ([0], [False], [None], an empty string or tuple) it replaces the entry
    by the new one and then evaluates [.value] on the new raw value. *)
Theorem add_duplicate_falsy_overwrites rt now (self : gmap key PycacheEntry.t)
    sf entry fetched_time max_age T stored :
  self !! KInt (Snowflake.snowflake sf) = Some stored →
  truthy rt (PycacheEntry.value stored) = false →
  Pycache.add rt now self sf entry fetched_time max_age T
  = (<[KInt (Snowflake.snowflake sf) :=
         PycacheEntry.__init__ now sf entry fetched_time max_age T]> self,
     getattr_value rt entry).
Proof.
  intros Hfound Hfalsy. unfold Pycache.add. simpl.
  rewrite (get_Some _ _ _ Hfound), Hfalsy. simpl.
  unfold Pycache.get. by rewrite lookup_insert_eq.
Qed.

Lemma add_duplicate_falsy_overwrites_witness :
  Pycache.add demo_rt 50 {[ KInt 7 := entry_of 7 (VInt 0) (Some 0) t_int ]}
    (flake 7) (VInt 5) 50 (Some 0) t_int
  = (<[KInt 7 := PycacheEntry.__init__ 50 (flake 7) (VInt 5) 50 (Some 0) t_int]>
       {[ KInt 7 := entry_of 7 (VInt 0) (Some 0) t_int ]},
     Raise (NoAttribute t_int a_value)).
Proof.
  apply (add_duplicate_falsy_overwrites demo_rt 50 _ (flake 7) (VInt 5) 50 (Some 0) t_int
           (entry_of 7 (VInt 0) (Some 0) t_int)).
  - apply lookup_singleton_eq.
  - reflexivity.
Defined.

(** * Properties of [PycacheEntry.update] *)

(** C6.  On a mutable-kind entry, with new data that is not a scalar,
    [update] raises the no-update-method error when the stored value has no
    [update] attribute and the not-updatable error when the attribute is
    there but is not callable; in both cases the entry, so its value and
    its fetched time, is as before. *)
Theorem update_without_update_method rt self fetched_time entry :
  PycacheEntry.is_immutable self = false →
  PycacheEntry.is_scalar rt entry = false →
  (getattr_update rt (PycacheEntry.value self) = None →
   PycacheEntry.update rt self fetched_time entry = (self, Raise NoUpdateMethod))
  ∧ (∀ x, getattr_update rt (PycacheEntry.value self) = Some (Plain x) →
     PycacheEntry.update rt self fetched_time entry = (self, Raise NotUpdatable)).
Proof.
  intros Hmutable Hdata. unfold PycacheEntry.update.
  rewrite Hmutable, Hdata. split.
  - by intros ->.
  - by intros x ->.
Qed.

Lemma update_without_update_method_witness :
  PycacheEntry.update demo_rt (entry_of 2 (VObj "Bare" VNone) (Some 5000) (t_class "Bare"))
    100 (VObj "IncrementBy" (VInt 5))
  = (entry_of 2 (VObj "Bare" VNone) (Some 5000) (t_class "Bare"), Raise NoUpdateMethod)
  ∧ PycacheEntry.update demo_rt (entry_of 2 (VObj "Static" VNone) (Some 5000) (t_class "Static"))
      100 (VObj "IncrementBy" (VInt 5))
    = (entry_of 2 (VObj "Static" VNone) (Some 5000) (t_class "Static"), Raise NotUpdatable).
Proof.
  split.
  - apply (update_without_update_method demo_rt
             (entry_of 2 (VObj "Bare" VNone) (Some 5000) (t_class "Bare"))
             100 (VObj "IncrementBy" (VInt 5))); reflexivity.
  - apply (update_without_update_method demo_rt
             (entry_of 2 (VObj "Static" VNone) (Some 5000) (t_class "Static"))
             100 (VObj "IncrementBy" (VInt 5)) eq_refl eq_refl) with (x := VInt 5).
    reflexivity.
Defined.

(** C10.  On a mutable-kind entry whose stored value has a callable
    [update] but no callable [serialize] (the attribute is absent, or is
    there and is not callable), [update] with new data that is not a scalar
    raises the serialization error of [serialize]; the entry is as before
    whatever the value's [update] would do, which is therefore not called. *)
Theorem update_unserializable rt self fetched_time entry call :
  PycacheEntry.is_immutable self = false →
  PycacheEntry.is_scalar rt entry = false →
  getattr_update rt (PycacheEntry.value self) = Some (Callable call) →
  (getattr_serialize rt (PycacheEntry.value self) = None →
   PycacheEntry.update rt self fetched_time entry = (self, Raise (UnserializableEntry false)))
  ∧ (∀ x, getattr_serialize rt (PycacheEntry.value self) = Some (Plain x) →
     PycacheEntry.update rt self fetched_time entry = (self, Raise (UnserializableEntry true))).
Proof.
  intros Hmutable Hdata Hupdate. unfold PycacheEntry.update, PycacheEntry.serialize.
  rewrite Hmutable, Hdata, Hupdate. split.
  - by intros ->.
  - by intros x ->.
Qed.

Lemma update_unserializable_witness :
  PycacheEntry.update demo_rt (entry_of 2 (VObj "Mute" (VInt 4)) (Some 5000) (t_class "Mute"))
    100 (VObj "IncrementBy" (VInt 5))
  = (entry_of 2 (VObj "Mute" (VInt 4)) (Some 5000) (t_class "Mute"),
     Raise (UnserializableEntry false))
  ∧ PycacheEntry.update demo_rt (entry_of 2 (VObj "Opaque" (VInt 4)) (Some 5000) (t_class "Opaque"))
      100 (VObj "IncrementBy" (VInt 5))
    = (entry_of 2 (VObj "Opaque" (VInt 4)) (Some 5000) (t_class "Opaque"),
       Raise (UnserializableEntry true)).
Proof.
  split.
  - apply (update_unserializable demo_rt
             (entry_of 2 (VObj "Mute" (VInt 4)) (Some 5000) (t_class "Mute"))
             100 (VObj "IncrementBy" (VInt 5))
             (λ args, let '(st', r) := counter_update (VInt 4) args in (VObj "Mute" st', r)));
      reflexivity.
  - apply (update_unserializable demo_rt
             (entry_of 2 (VObj "Opaque" (VInt 4)) (Some 5000) (t_class "Opaque"))
             100 (VObj "IncrementBy" (VInt 5))
             (λ args, let '(st', r) := counter_update (VInt 4) args in (VObj "Opaque" st', r))
             eq_refl eq_refl eq_refl) with (x := VStr "n/a").
    reflexivity.
Defined.

(** The path of [update] that reaches [value.update]: what the call does
    when the clone was built and the value's [update] returned. *)
Lemma update_success rt self fetched_time entry call serialized clone mutated res :
  PycacheEntry.is_immutable self = false →
  PycacheEntry.is_scalar rt entry = false →
  getattr_update rt (PycacheEntry.value self) = Some (Callable call) →
  PycacheEntry.serialize rt self = Return serialized →
  rt_call rt (PycacheEntry._value_instance self) serialized = Return clone →
  call [entry] = (mutated, Return res) →
  PycacheEntry.update rt self fetched_time entry
  = (PycacheEntry.setattr_fetched_time (PycacheEntry.setattr_value self mutated) fetched_time,
     Return res).
Proof.
  intros Hmutable Hdata Hupdate Hser Hclone Hcall. unfold PycacheEntry.update.
  by rewrite Hmutable, Hdata, Hupdate, Hser, Hclone, Hcall.
Qed.

(** The same path when the value's [update] raised: [except Exception]
    rebinds the value to the clone, as the call left it, for an
    [Exception], and lets anything else through with the value as the call
    left it. *)
Lemma update_failure rt self fetched_time entry call serialized clone mutated e :
  PycacheEntry.is_immutable self = false →
  PycacheEntry.is_scalar rt entry = false →
  getattr_update rt (PycacheEntry.value self) = Some (Callable call) →
  PycacheEntry.serialize rt self = Return serialized →
  rt_call rt (PycacheEntry._value_instance self) serialized = Return clone →
  call [entry] = (mutated, Raise e) →
  PycacheEntry.update rt self fetched_time entry
  = (PycacheEntry.setattr_value self
       (if is_Exception e then rt_after_update rt clone (PycacheEntry.value self) [entry]
        else mutated),
     Raise e).
Proof.
  intros Hmutable Hdata Hupdate Hser Hclone Hcall. unfold PycacheEntry.update.
  rewrite Hmutable, Hdata, Hupdate, Hser, Hclone, Hcall.
  by destruct (is_Exception e).
Qed.

(** C5, amended.  On a mutable-kind entry whose value has a callable
    [update], when [update] reaches [value.update(newData)] (the new data
    is not a scalar and the rollback clone was built by the declared type
    from [serialize()]) and that call raises, the exception reaches the
    caller as it was raised and the fetched time is as before.  When the
    exception derives from [Exception], the entry's value after the call
    is the clone, in the state the call left it; and if the call left the
    clone as it was built and the clone's own [serialize()] returns the
    data it was built from, [serialize()] on the entry returns after the
    call what it returned before.  When the exception does not derive from
    [Exception] there is no rollback: the entry keeps the object as the
    call left it. *)
Theorem update_rolls_back rt self fetched_time entry call serialized clone mutated e :
  PycacheEntry.is_immutable self = false →
  PycacheEntry.is_scalar rt entry = false →
  getattr_update rt (PycacheEntry.value self) = Some (Callable call) →
  PycacheEntry.serialize rt self = Return serialized →
  rt_call rt (PycacheEntry._value_instance self) serialized = Return clone →
  call [entry] = (mutated, Raise e) →
  ∃ self',
    PycacheEntry.update rt self fetched_time entry = (self', Raise e)
    ∧ PycacheEntry._fetched_time self' = PycacheEntry._fetched_time self
    ∧ (is_Exception e = true →
       PycacheEntry.value self' = rt_after_update rt clone (PycacheEntry.value self) [entry]
       ∧ (rt_after_update rt clone (PycacheEntry.value self) [entry] = clone →
          getattr_serialize rt clone = Some (Callable (Return serialized)) →
          PycacheEntry.serialize rt self' = PycacheEntry.serialize rt self))
    ∧ (is_Exception e = false → PycacheEntry.value self' = mutated).
Proof.
  intros Hmutable Hdata Hupdate Hser Hclone Hcall.
  eexists. split.
  { by apply (update_failure rt self fetched_time entry call serialized clone mutated e). }
  split; [done|]. split.
  - intros Hexc. simpl. rewrite Hexc. split; [done|].
    intros Hsame Hround. rewrite Hsame, Hser. unfold PycacheEntry.serialize.
    replace (PycacheEntry.is_immutable (PycacheEntry.setattr_value self clone))
      with (PycacheEntry.is_immutable self) by done.
    rewrite Hmutable. simpl. by rewrite Hround.
  - intros Hexc. simpl. by rewrite Hexc.
Qed.

(** The spec's example: a counter of count 4 refuses [IncrementBy(-1)]
    after it changed its count, and the entry is left with a counter of
    count 4 and its old fetched time. *)
Lemma update_rolls_back_witness :
  ∃ self',
    PycacheEntry.update demo_rt
      (entry_of 1002 (VObj "Counter" (VInt 4)) (Some 5000) (t_class "Counter"))
      6000 (VObj "IncrementBy" (VInt (-1)))
    = (self', Raise (ClientError true (VStr "ValueError")))
    ∧ PycacheEntry._fetched_time self' = 0
    ∧ PycacheEntry.value self' = VObj "Counter" (VInt 4)
    ∧ PycacheEntry.serialize demo_rt self' = Return (VInt 4).
Proof.
  destruct (update_rolls_back demo_rt
              (entry_of 1002 (VObj "Counter" (VInt 4)) (Some 5000) (t_class "Counter"))
              6000 (VObj "IncrementBy" (VInt (-1)))
              (λ args, let '(st', r) := counter_update (VInt 4) args in (VObj "Counter" st', r))
              (VInt 4) (VObj "Counter" (VInt 4)) (VObj "Counter" (VInt 3))
              (ClientError true (VStr "ValueError"))
              eq_refl eq_refl eq_refl eq_refl eq_refl eq_refl)
    as (self' & Hupdate & Hfetched & Hcaught & _).
  destruct (Hcaught eq_refl) as [Hvalue Hserialize].
  exists self'. split; [exact Hupdate|]. split; [exact Hfetched|]. split; [exact Hvalue|].
  apply Hserialize; reflexivity.
Defined.

(** C5 as stated fails in three ways.  A [Tally] is rebuilt from its
    serialized form as a tally of zero: after a refused update of a tally
    of 4 the entry serializes to 0, not to 4.  A [Counter] whose [update]
    raises [KeyboardInterrupt], which [except Exception] does not catch, is
    not rolled back: the entry keeps the counter the call left, and
    serializes to 6, not to 4.  A [Bag] shares its list with the clone
    built from [serialize()]: the item the failed [update] appended is in
    the clone too, and the entry serializes to the list of two items, not
    of one.  The three entries are of mutable kind, with a callable
    [update] that raises. *)
Lemma update_rollback_counterexample :
  (∃ call mutated self' e,
     PycacheEntry.is_immutable
       (entry_of 3 (VObj "Tally" (VInt 4)) (Some 5000) (t_class "Tally")) = false
     ∧ getattr_update demo_rt (VObj "Tally" (VInt 4)) = Some (Callable call)
     ∧ call [VObj "IncrementBy" (VInt (-1))] = (mutated, Raise e)
     ∧ PycacheEntry.update demo_rt
         (entry_of 3 (VObj "Tally" (VInt 4)) (Some 5000) (t_class "Tally"))
         6000 (VObj "IncrementBy" (VInt (-1)))
       = (self', Raise e)
     ∧ PycacheEntry.serialize demo_rt
         (entry_of 3 (VObj "Tally" (VInt 4)) (Some 5000) (t_class "Tally")) = Return (VInt 4)
     ∧ PycacheEntry.serialize demo_rt self' = Return (VInt 0)
     ∧ PycacheEntry.serialize demo_rt self'
       ≠ PycacheEntry.serialize demo_rt
           (entry_of 3 (VObj "Tally" (VInt 4)) (Some 5000) (t_class "Tally")))
  ∧ (∃ call mutated self' e,
       PycacheEntry.is_immutable
         (entry_of 3 (VObj "Counter" (VInt 4)) (Some 5000) (t_class "Counter")) = false
       ∧ getattr_update demo_rt (VObj "Counter" (VInt 4)) = Some (Callable call)
       ∧ call [VObj "Interrupt" (VInt 2)] = (mutated, Raise e)
       ∧ PycacheEntry.update demo_rt
           (entry_of 3 (VObj "Counter" (VInt 4)) (Some 5000) (t_class "Counter"))
           6000 (VObj "Interrupt" (VInt 2))
         = (self', Raise e)
       ∧ PycacheEntry.serialize demo_rt
           (entry_of 3 (VObj "Counter" (VInt 4)) (Some 5000) (t_class "Counter"))
         = Return (VInt 4)
       ∧ PycacheEntry.serialize demo_rt self' = Return (VInt 6)
       ∧ PycacheEntry.serialize demo_rt self'
         ≠ PycacheEntry.serialize demo_rt
             (entry_of 3 (VObj "Counter" (VInt 4)) (Some 5000) (t_class "Counter")))
  ∧ (∃ call mutated self' e,
       PycacheEntry.is_immutable
         (entry_of 3 (VObj "Bag" (VTuple [VInt 1])) (Some 5000) (t_class "Bag")) = false
       ∧ getattr_update demo_rt (VObj "Bag" (VTuple [VInt 1])) = Some (Callable call)
       ∧ call [VObj "Item" (VInt 2)] = (mutated, Raise e)
       ∧ is_Exception e = true
       ∧ PycacheEntry.update demo_rt
           (entry_of 3 (VObj "Bag" (VTuple [VInt 1])) (Some 5000) (t_class "Bag"))
           6000 (VObj "Item" (VInt 2))
         = (self', Raise e)
       ∧ PycacheEntry.serialize demo_rt
           (entry_of 3 (VObj "Bag" (VTuple [VInt 1])) (Some 5000) (t_class "Bag"))
         = Return (VObj "list" (VTuple [VInt 1]))
       ∧ PycacheEntry.serialize demo_rt self'
         = Return (VObj "list" (VTuple [VInt 1; VObj "Item" (VInt 2)]))
       ∧ PycacheEntry.serialize demo_rt self'
         ≠ PycacheEntry.serialize demo_rt
             (entry_of 3 (VObj "Bag" (VTuple [VInt 1])) (Some 5000) (t_class "Bag"))).
Proof.
  split; [|split].
  - eexists _, _, _, _. repeat split; discriminate.
  - eexists _, _, _, _. repeat split; discriminate.
  - eexists _, _, _, _. repeat split; discriminate.
Qed.

(** * Properties of [is_stale] and of the views *)

(** C7.  [is_stale] is false when [max_age] is [0] or [None], whatever
    the clock; otherwise it is true exactly when the clock at the call
    minus the fetched time exceeds [max_age]. *)
Theorem is_stale_spec now self :
  (PycacheEntry._max_age self = None ∨ PycacheEntry._max_age self = Some 0 →
   PycacheEntry.is_stale now self = false)
  ∧ (∀ max_age, PycacheEntry._max_age self = Some max_age → max_age ≠ 0 →
     (PycacheEntry.is_stale now self = true
      ↔ now - PycacheEntry._fetched_time self > max_age)).
Proof.
  unfold PycacheEntry.is_stale. split.
  - by intros [-> | ->].
  - intros max_age -> Hne.
    destruct (Z.eqb_spec max_age 0) as [?|_]; [done|].
    destruct (Z.gtb_spec (now - PycacheEntry._fetched_time self) max_age); split; (done || lia).
Qed.

Lemma is_stale_spec_witness :
  PycacheEntry.is_stale 6000 (entry_of 1001 (VStr "hello") (Some 0) t_str) = false
  ∧ PycacheEntry.is_stale 6000 (entry_of 1001 (VStr "hello") None t_str) = false
  ∧ PycacheEntry.is_stale 6000 (entry_of 1002 (VObj "Counter" (VInt 0)) (Some 5000)
                                  (t_class "Counter")) = true.
Proof.
  split; [|split].
  - apply (is_stale_spec 6000 (entry_of 1001 (VStr "hello") (Some 0) t_str)).
    right. reflexivity.
  - apply (is_stale_spec 6000 (entry_of 1001 (VStr "hello") None t_str)).
    left. reflexivity.
  - apply (proj2 (is_stale_spec 6000 (entry_of 1002 (VObj "Counter" (VInt 0)) (Some 5000)
                                        (t_class "Counter"))) 5000 eq_refl).
    + discriminate.
    + reflexivity.
Defined.

Lemma is_a_derives_from v T :
  is_a v T = true ↔ derives_from (type_of v) T.
Proof.
  unfold is_a, derives_from.
  destruct v, T; rewrite ?bool_decide_eq_true; simpl; split;
    try (intros [?|[? ?]]); intros; try done; auto.
Qed.

Lemma isinstance_instance_of rt v T :
  isinstance rt v T = true ↔ instance_of rt v T.
Proof.
  unfold instance_of. destruct v as [| | | | | | | | | |c st];
    try (unfold isinstance; rewrite is_a_derives_from; split;
         [by left|by intros [?|(? & ? & ? & ? & _)]]).
  unfold isinstance. rewrite orb_true_iff, bool_decide_eq_true. simpl. split.
  - intros [Hclass|Hbase]; [left; by left|].
    destruct (rt_base rt c st) as [base|] eqn:Hb; [|done].
    right. exists c, st, base. split_and!; [done..|by apply is_a_derives_from].
  - intros [[Hclass|[_ ?]]|(c' & st' & base & [= <- <-] & -> & Hbase)]; [by left|done|].
    right. by apply is_a_derives_from.
Qed.

Lemma find_isinstance_view_of rt T (self : gmap key PycacheEntry.t) :
  view_of rt T self
    (Pycache.find self (λ entry, isinstance rt (PycacheEntry.value entry) T)).
Proof.
  rewrite find_matching. case_decide as Hempty; simpl.
  - split; [done|]. intros k entry Hk Hinst.
    apply isinstance_instance_of in Hinst.
    rewrite matching_empty_iff in Hempty.
    rewrite (Hempty _ _ Hk) in Hinst. done.
  - split; [done|]. intros k v. rewrite matching_lookup_Some.
    split; intros (entry & Hk & H1 & H2); exists entry; split_and!; try done.
    + subst v. by apply isinstance_instance_of.
    + subst v. by apply isinstance_instance_of.
Qed.

Lemma find_holds_match (self : gmap key PycacheEntry.t) condition k entry :
  self !! k = Some entry → condition entry = true →
  ∃ m, Pycache.find self condition = Return m ∧ m !! k = Some (PycacheEntry.value entry).
Proof.
  intros Hk Hc.
  assert (matching self condition !! k = Some (PycacheEntry.value entry)) as Hl
    by (apply matching_lookup_Some; eauto).
  exists (matching self condition). split; [|done].
  rewrite find_matching. case_decide as Hempty; [|done].
  by rewrite Hempty, lookup_empty in Hl.
Qed.

(** C8, amended.  Each view by type yields exactly the mapping from the
    identifier to the stored value of the entries whose value is an
    instance of the type in the sense of [isinstance]: its type is that
    type or any subclass of it ([bool] for the integers view, a client
    class that derives from the type); and it raises the no-matches error
    when there is no such entry.  An entry that stores a [bool] is in the
    booleans view and in the integers view, and an entry that stores an
    instance of a class deriving from [tuple] is in the tuples view. *)
Theorem views_by_type rt (self : gmap key PycacheEntry.t) :
  view_of rt t_str self (Pycache.str rt self)
  ∧ view_of rt t_int self (Pycache.int rt self)
  ∧ view_of rt t_complex self (Pycache.complex rt self)
  ∧ view_of rt t_bool self (Pycache.bool rt self)
  ∧ view_of rt t_frozenset self (Pycache.frozenset rt self)
  ∧ view_of rt t_float self (Pycache.float rt self)
  ∧ view_of rt t_tuple self (Pycache.tuple rt self)
  ∧ (∀ k entry b,
       self !! k = Some entry → PycacheEntry.value entry = VBool b →
       ∃ booleans integers,
         Pycache.bool rt self = Return booleans ∧ booleans !! k = Some (VBool b)
         ∧ Pycache.int rt self = Return integers ∧ integers !! k = Some (VBool b))
  ∧ (∀ k entry c st base,
       self !! k = Some entry → PycacheEntry.value entry = VObj c st →
       rt_base rt c st = Some base → type_of base = t_tuple →
       ∃ tuples, Pycache.tuple rt self = Return tuples ∧ tuples !! k = Some (VObj c st)).
Proof.
  split_and!; try (by apply find_isinstance_view_of).
  - intros k entry b Hk Hv.
    destruct (find_holds_match self (λ e, isinstance rt (PycacheEntry.value e) t_bool) k entry)
      as (booleans & Hb & Hbk); [done|by rewrite Hv|].
    destruct (find_holds_match self (λ e, isinstance rt (PycacheEntry.value e) t_int) k entry)
      as (integers & Hi & Hik); [done|by rewrite Hv|].
    exists booleans, integers. rewrite <-Hv. done.
  - intros k entry c st base Hk Hv Hbase Htuple.
    destruct (find_holds_match self (λ e, isinstance rt (PycacheEntry.value e) t_tuple) k entry)
      as (tuples & Ht & Htk); [done| |].
    + rewrite Hv. apply isinstance_instance_of. right. exists c, st, base.
      split_and!; [done..|by left].
    + exists tuples. by rewrite <-Hv.
Qed.

(** A cache that stores [True] and a namedtuple [Point(1, 2)]. *)
Lemma views_by_type_witness :
  (∃ booleans integers,
     Pycache.bool demo_rt
       {[ KInt 1 := entry_of 1 (VBool true) (Some 0) t_bool ]} = Return booleans
     ∧ booleans !! KInt 1 = Some (VBool true)
     ∧ Pycache.int demo_rt
         {[ KInt 1 := entry_of 1 (VBool true) (Some 0) t_bool ]} = Return integers
     ∧ integers !! KInt 1 = Some (VBool true))
  ∧ (∃ tuples,
       Pycache.tuple demo_rt
         {[ KInt 2 := entry_of 2 (VObj "Point" (VTuple [VInt 1; VInt 2])) (Some 0)
                        (t_class "Point") ]} = Return tuples
       ∧ tuples !! KInt 2 = Some (VObj "Point" (VTuple [VInt 1; VInt 2]))).
Proof.
  split.
  - apply (proj1 (proj2 (proj2 (proj2 (proj2 (proj2 (proj2 (proj2
             (views_by_type demo_rt
                {[ KInt 1 := entry_of 1 (VBool true) (Some 0) t_bool ]}))))))))
             (KInt 1) (entry_of 1 (VBool true) (Some 0) t_bool) true).
    + apply lookup_singleton_eq.
    + reflexivity.
  - apply (proj2 (proj2 (proj2 (proj2 (proj2 (proj2 (proj2 (proj2
             (views_by_type demo_rt
                {[ KInt 2 := entry_of 2 (VObj "Point" (VTuple [VInt 1; VInt 2])) (Some 0)
                               (t_class "Point") ]}))))))))
             (KInt 2)
             (entry_of 2 (VObj "Point" (VTuple [VInt 1; VInt 2])) (Some 0) (t_class "Point"))
             "Point" (VTuple [VInt 1; VInt 2]) (VTuple [VInt 1; VInt 2])).
    + apply lookup_singleton_eq.
    + reflexivity.
    + reflexivity.
    + reflexivity.
Defined.

(** C8 as stated fails: the integers view of a cache whose one entry
    stores [True] holds that entry, whose value is of type [bool], not
    [int]. *)
Lemma views_by_type_counterexample :
  Pycache.int demo_rt {[ KInt 1 := entry_of 1 (VBool true) (Some 0) t_bool ]}
  = Return {[ KInt 1 := VBool true ]}
  ∧ ({[ KInt 1 := VBool true ]} : gmap key pyval) !! KInt 1 = Some (VBool true)
  ∧ type_of (VBool true) = t_bool
  ∧ type_of (VBool true) ≠ t_int.
Proof.
  split_and!; [|apply lookup_singleton_eq|done|done].
  unfold Pycache.int. rewrite find_matching.
  unfold matching. rewrite omap_singleton_Some with (y := VBool true) by done.
  case_decide as Hempty; [|done].
  by apply (f_equal (λ m : gmap key pyval, m !! KInt 1)) in Hempty;
    rewrite lookup_singleton_eq, lookup_empty in Hempty.
Qed.

(** C9.  At a fixed clock: [find] with a condition that no entry meets
    raises the no-matches error, and [find] never returns an empty mapping;
    the result sets of [stale()] and [fresh()], a no-matches failure read
    as the empty set, are disjoint and together hold every entry of the
    cache, each under its identifier with its stored value. *)
Theorem find_no_matches_and_partition now (self : gmap key PycacheEntry.t) :
  (∀ condition,
     (∀ k entry, self !! k = Some entry → condition entry = false) →
     Pycache.find self condition = Raise NoMatches)
  ∧ (∀ condition m, Pycache.find self condition = Return m → m ≠ ∅)
  ∧ result_set (Pycache.stale now self) ##ₘ result_set (Pycache.fresh now self)
  ∧ result_set (Pycache.stale now self) ∪ result_set (Pycache.fresh now self)
    = PycacheEntry.value <$> self.
Proof.
  assert (∀ condition, result_set (Pycache.find self condition) = matching self condition)
    as Hset.
  { intros condition. rewrite find_matching. by case_decide as Hempty; [rewrite Hempty|]. }
  split_and!.
  - intros condition Hnone. rewrite find_matching.
    apply matching_empty_iff in Hnone. by rewrite decide_True.
  - intros condition m. rewrite find_matching. case_decide; [done|]. by intros [= <-].
  - unfold Pycache.stale, Pycache.fresh. rewrite !Hset.
    apply map_disjoint_spec. intros k v1 v2.
    rewrite !matching_lookup_Some.
    intros (e1 & Hk1 & Hs1 & _) (e2 & Hk2 & Hs2 & _). simplify_eq.
    rewrite Hs1 in Hs2. done.
  - unfold Pycache.stale, Pycache.fresh. rewrite !Hset.
    apply map_eq. intros k. unfold matching.
    rewrite lookup_union, !lookup_omap, lookup_fmap.
    destruct (self !! k) as [entry|]; simpl; [|done].
    by destruct (PycacheEntry.is_stale now entry).
Qed.

Lemma find_no_matches_and_partition_witness :
  Pycache.find
    {[ KInt 1001 := entry_of 1001 (VStr "hello") (Some 0) t_str ]}
    (PycacheEntry.is_stale 6000)
  = Raise NoMatches.
Proof.
  apply (proj1 (find_no_matches_and_partition 6000
                  {[ KInt 1001 := entry_of 1001 (VStr "hello") (Some 0) t_str ]})).
  intros k entry Hk.
  apply lookup_singleton_Some in Hk as [_ <-]. reflexivity.
Defined.

(** * More on [PycacheEntry.update], [serialize] and [is_stale] *)

(** The three shapes of what [update] leaves: a new value and the new
    fetched time with a result, a new value alone with an exception, or
    the entry as it was with an exception. *)
Lemma update_cases rt self fetched_time entry :
  (∃ v res, PycacheEntry.update rt self fetched_time entry
            = (PycacheEntry.setattr_fetched_time (PycacheEntry.setattr_value self v) fetched_time,
               Return res))
  ∨ (∃ v e, PycacheEntry.update rt self fetched_time entry
            = (PycacheEntry.setattr_value self v, Raise e))
  ∨ (∃ e, PycacheEntry.update rt self fetched_time entry = (self, Raise e)).
Proof.
  unfold PycacheEntry.update.
  destruct (PycacheEntry.is_immutable self); [left; eauto|].
  destruct (PycacheEntry.is_scalar rt entry); [left; eauto|].
  destruct (getattr_update rt (PycacheEntry.value self)) as [[x|call]|]; [eauto..| |eauto].
  destruct (PycacheEntry.serialize rt self) as [serialized|e]; [|eauto].
  destruct (rt_call rt (PycacheEntry._value_instance self) serialized) as [clone|e]; [|eauto].
  destruct (call [entry]) as [mutated [res|e]]; [left; eauto|].
  destruct (is_Exception e); right; left; eauto.
Qed.

(** A value whose type is one of the seven scalar types itself, not a
    class deriving from one, passes the test of line 126 and has neither
    an [update] nor a [serialize] attribute. *)
Lemma proper_scalar rt v :
  type_of v ∈ [t_str; t_int; t_bool; t_float; t_complex; t_tuple; t_frozenset] →
  PycacheEntry.is_scalar rt v = true
  ∧ getattr_update rt v = None ∧ getattr_serialize rt v = None.
Proof.
  intros Htype. destruct v; try done; exfalso;
    repeat (apply elem_of_cons in Htype as [?|Htype]; [done|]);
    by apply elem_of_nil in Htype.
Qed.

(** X1.  Whatever [update] does, returning or raising, it leaves the
    identifier, its string form, the snowflake, the cached time, the
    maximum age and the declared type of the entry as they were, so the
    entry stays of the kind it was built with. *)
Theorem update_keeps_identity rt self fetched_time entry :
  same_identity (PycacheEntry.update rt self fetched_time entry).1 self
  ∧ PycacheEntry.is_immutable (PycacheEntry.update rt self fetched_time entry).1
    = PycacheEntry.is_immutable self.
Proof.
  destruct (update_cases rt self fetched_time entry)
    as [(v & res & ->)|[(v & e & ->)|(e & ->)]]; by repeat split.
Qed.

(** X2.  [update] stores the new fetched time exactly when it returns: an
    [update] that raises leaves the fetched time as it was. *)
Theorem update_fetched_time_iff_returns rt self fetched_time entry :
  match PycacheEntry.update rt self fetched_time entry with
  | (self', Return _) => PycacheEntry._fetched_time self' = fetched_time
  | (self', Raise _) => PycacheEntry._fetched_time self' = PycacheEntry._fetched_time self
  end.
Proof.
  destruct (update_cases rt self fetched_time entry)
    as [(v & res & ->)|[(v & e & ->)|(e & ->)]]; done.
Qed.

(** X3.  On an immutable-kind entry [update] always returns [None], with
    any new data and under any client code; the entry then holds the new
    data and the new fetched time, and [serialize] returns the new data. *)
Theorem update_immutable_kind rt self fetched_time entry :
  PycacheEntry.is_immutable self = true →
  ∃ self',
    PycacheEntry.update rt self fetched_time entry = (self', Return VNone)
    ∧ PycacheEntry.value self' = entry
    ∧ PycacheEntry._fetched_time self' = fetched_time
    ∧ PycacheEntry.serialize rt self' = Return entry.
Proof.
  intros Himm.
  exists (PycacheEntry.setattr_fetched_time (PycacheEntry.setattr_value self entry)
            fetched_time).
  unfold PycacheEntry.update. rewrite Himm.
  split; [done|]. split; [done|]. split; [done|].
  unfold PycacheEntry.serialize.
  replace (PycacheEntry.is_immutable _) with (PycacheEntry.is_immutable self) by done.
  by rewrite Himm.
Qed.

Lemma update_immutable_kind_witness :
  ∃ self',
    PycacheEntry.update demo_rt (entry_of 1001 (VStr "hello") (Some 0) t_str) 100
      (VObj "Counter" (VInt 4))
    = (self', Return VNone)
    ∧ PycacheEntry.value self' = VObj "Counter" (VInt 4)
    ∧ PycacheEntry._fetched_time self' = 100
    ∧ PycacheEntry.serialize demo_rt self' = Return (VObj "Counter" (VInt 4)).
Proof.
  apply (update_immutable_kind demo_rt (entry_of 1001 (VStr "hello") (Some 0) t_str) 100
           (VObj "Counter" (VInt 4))).
  reflexivity.
Defined.

(** X4.  On a mutable-kind entry, [update] with new data that passes the
    scalar test of line 126 stores the data without asking the stored
    object, and returns [None].  When the type of the data is one of the
    seven scalar types itself (not a class deriving from one), the entry
    then holds a value with neither capability: every later [update] with
    data that is not a scalar raises the no-update-method error and
    changes nothing, and [serialize] raises the serialization error. *)
Theorem scalar_update_of_mutable_entry rt self fetched_time scalar fetched_time' entry :
  PycacheEntry.is_immutable self = false →
  PycacheEntry.is_scalar rt scalar = true →
  PycacheEntry.is_scalar rt entry = false →
  ∃ self',
    PycacheEntry.update rt self fetched_time scalar = (self', Return VNone)
    ∧ PycacheEntry.value self' = scalar
    ∧ PycacheEntry._fetched_time self' = fetched_time
    ∧ (type_of scalar ∈ [t_str; t_int; t_bool; t_float; t_complex; t_tuple; t_frozenset] →
       PycacheEntry.update rt self' fetched_time' entry = (self', Raise NoUpdateMethod)
       ∧ PycacheEntry.serialize rt self' = Raise (UnserializableEntry false)).
Proof.
  intros Hmut Hscalar Hentry.
  exists (PycacheEntry.setattr_fetched_time (PycacheEntry.setattr_value self scalar)
            fetched_time).
  split; [|split; [done|split; [done|]]].
  - unfold PycacheEntry.update. by rewrite Hmut, Hscalar.
  - intros Hproper. destruct (proper_scalar rt scalar Hproper) as (_ & Hupd & Hser). split.
    + unfold PycacheEntry.update.
      replace (PycacheEntry.is_immutable _) with (PycacheEntry.is_immutable self) by done.
      rewrite Hmut, Hentry. simpl. by rewrite Hupd.
    + unfold PycacheEntry.serialize.
      replace (PycacheEntry.is_immutable _) with (PycacheEntry.is_immutable self) by done.
      rewrite Hmut. simpl. by rewrite Hser.
Qed.

Lemma scalar_update_of_mutable_entry_witness :
  ∃ self',
    PycacheEntry.update demo_rt
      (entry_of 1002 (VObj "Counter" (VInt 4)) (Some 5000) (t_class "Counter")) 100 (VInt 9)
    = (self', Return VNone)
    ∧ PycacheEntry.value self' = VInt 9
    ∧ PycacheEntry._fetched_time self' = 100
    ∧ PycacheEntry.update demo_rt self' 200 (VObj "IncrementBy" (VInt 1))
      = (self', Raise NoUpdateMethod)
    ∧ PycacheEntry.serialize demo_rt self' = Raise (UnserializableEntry false).
Proof.
  destruct (scalar_update_of_mutable_entry demo_rt
              (entry_of 1002 (VObj "Counter" (VInt 4)) (Some 5000) (t_class "Counter"))
              100 (VInt 9) 200 (VObj "IncrementBy" (VInt 1)) eq_refl eq_refl eq_refl)
    as (self' & Hupdate & Hvalue & Hfetched & Hlater).
  exists self'. split; [exact Hupdate|]. split; [exact Hvalue|]. split; [exact Hfetched|].
  apply Hlater. repeat constructor.
Defined.



(** X6.  When [value.update(newData)] returns, the entry holds the object
    as the call left it (not the clone), the fetched time is the new one,
    and [update] returns what the value's [update] returned. *)
Theorem update_mutates_in_place rt self fetched_time entry call serialized clone mutated res :
  PycacheEntry.is_immutable self = false →
  PycacheEntry.is_scalar rt entry = false →
  getattr_update rt (PycacheEntry.value self) = Some (Callable call) →
  PycacheEntry.serialize rt self = Return serialized →
  rt_call rt (PycacheEntry._value_instance self) serialized = Return clone →
  call [entry] = (mutated, Return res) →
  ∃ self',
    PycacheEntry.update rt self fetched_time entry = (self', Return res)
    ∧ PycacheEntry.value self' = mutated
    ∧ PycacheEntry._fetched_time self' = fetched_time.
Proof.
  intros Hmut Hdata Hupd Hser Hclone Hcall.
  exists (PycacheEntry.setattr_fetched_time (PycacheEntry.setattr_value self mutated)
            fetched_time).
  split; [|done].
  by apply (update_success rt self fetched_time entry call serialized clone mutated res).
Qed.

Lemma update_mutates_in_place_witness :
  ∃ self',
    PycacheEntry.update demo_rt
      (entry_of 1002 (VObj "Counter" (VInt 4)) (Some 5000) (t_class "Counter"))
      6000 (VObj "IncrementBy" (VInt 5))
    = (self', Return (VInt 9))
    ∧ PycacheEntry.value self' = VObj "Counter" (VInt 9)
    ∧ PycacheEntry._fetched_time self' = 6000.
Proof.
  apply (update_mutates_in_place demo_rt
           (entry_of 1002 (VObj "Counter" (VInt 4)) (Some 5000) (t_class "Counter"))
           6000 (VObj "IncrementBy" (VInt 5))
           (λ args, let '(st', r) := counter_update (VInt 4) args in (VObj "Counter" st', r))
           (VInt 4) (VObj "Counter" (VInt 4)) (VObj "Counter" (VInt 9)) (VInt 9));
    reflexivity.
Defined.

(** X7.  When [value.update(newData)] raises an exception that does not
    derive from [Exception], the handler does not run: the exception
    reaches the caller, the entry keeps the object as the call left it, and
    the fetched time is as before. *)
Theorem update_uncaught_keeps_mutation rt self fetched_time entry call serialized clone
    mutated e :
  PycacheEntry.is_immutable self = false →
  PycacheEntry.is_scalar rt entry = false →
  getattr_update rt (PycacheEntry.value self) = Some (Callable call) →
  PycacheEntry.serialize rt self = Return serialized →
  rt_call rt (PycacheEntry._value_instance self) serialized = Return clone →
  call [entry] = (mutated, Raise e) →
  is_Exception e = false →
  ∃ self',
    PycacheEntry.update rt self fetched_time entry = (self', Raise e)
    ∧ PycacheEntry.value self' = mutated
    ∧ PycacheEntry._fetched_time self' = PycacheEntry._fetched_time self.
Proof.
  intros Hmut Hdata Hupd Hser Hclone Hcall Hexc.
  exists (PycacheEntry.setattr_value self mutated). split; [|done].
  rewrite (update_failure rt self fetched_time entry call serialized clone mutated e) by done.
  by rewrite Hexc.
Qed.

Lemma update_uncaught_keeps_mutation_witness :
  ∃ self',
    PycacheEntry.update demo_rt
      (entry_of 1002 (VObj "Counter" (VInt 4)) (Some 5000) (t_class "Counter"))
      6000 (VObj "Interrupt" (VInt 2))
    = (self', Raise (ClientError false (VStr "KeyboardInterrupt")))
    ∧ PycacheEntry.value self' = VObj "Counter" (VInt 6)
    ∧ PycacheEntry._fetched_time self' = 0.
Proof.
  apply (update_uncaught_keeps_mutation demo_rt
           (entry_of 1002 (VObj "Counter" (VInt 4)) (Some 5000) (t_class "Counter"))
           6000 (VObj "Interrupt" (VInt 2))
           (λ args, let '(st', r) := counter_update (VInt 4) args in (VObj "Counter" st', r))
           (VInt 4) (VObj "Counter" (VInt 4)) (VObj "Counter" (VInt 6))
           (ClientError false (VStr "KeyboardInterrupt")));
    reflexivity.
Defined.

(** Staleness is monotone in the clock: an entry that is stale at one time
    is stale at every later time. *)
Lemma is_stale_later now now' self :
  now ≤ now' →
  PycacheEntry.is_stale now self = true →
  PycacheEntry.is_stale now' self = true.
Proof.
  unfold PycacheEntry.is_stale. intros Hle.
  destruct (PycacheEntry._max_age self) as [max_age|]; [|done].
  destruct (max_age =? 0); [done|].
  destruct (Z.gtb_spec (now - PycacheEntry._fetched_time self) max_age); [|done].
  destruct (Z.gtb_spec (now' - PycacheEntry._fetched_time self) max_age); [done|lia].
Qed.

(** X9.  An [update] that returns makes the entry fresh at every time [now]
    at which the new fetched time is at most [max_age] old, whatever the
    entry was before. *)
Theorem update_refreshes rt self fetched_time entry now self' res :
  PycacheEntry.update rt self fetched_time entry = (self', Return res) →
  (∀ max_age, PycacheEntry._max_age self = Some max_age → now - fetched_time ≤ max_age) →
  PycacheEntry.is_stale now self' = false.
Proof.
  intros Hupdate Hage.
  destruct (update_cases rt self fetched_time entry)
    as [(v & r & Hcase)|[(v & e & Hcase)|(e & Hcase)]];
    rewrite Hcase in Hupdate; simplify_eq.
  unfold PycacheEntry.is_stale. simpl.
  destruct (PycacheEntry._max_age self) as [max_age|]; [|done].
  destruct (max_age =? 0); [done|].
  specialize (Hage max_age eq_refl).
  destruct (Z.gtb_spec (now - fetched_time) max_age); [lia|done].
Qed.

Lemma update_refreshes_witness :
  PycacheEntry.is_stale 6000
    (entry_of 1002 (VObj "Counter" (VInt 4)) (Some 5000) (t_class "Counter")) = true
  ∧ PycacheEntry.is_stale 6000
      (PycacheEntry.__init__ 0 (flake 1002) (VObj "Counter" (VInt 9)) 6000 (Some 5000)
         (t_class "Counter")) = false.
Proof.
  split; [reflexivity|].
  apply (update_refreshes demo_rt
           (entry_of 1002 (VObj "Counter" (VInt 4)) (Some 5000) (t_class "Counter"))
           6000 (VObj "IncrementBy" (VInt 5)) 6000 _ (VInt 9)).
  - reflexivity.
  - intros max_age [= <-]. lia.
Defined.

(** * More on [find] and the views *)

(** X10.  When [find] returns, the mapping is not empty and holds exactly
    the entries of the cache that meet the condition, each under its
    identifier with its stored value; when it raises, the exception is the
    no-matches error and no entry meets the condition. *)
Theorem find_returns_exactly_matches (self : gmap key PycacheEntry.t) condition :
  match Pycache.find self condition with
  | Return m =>
      m ≠ ∅
      ∧ ∀ k v, m !! k = Some v
               ↔ ∃ entry, self !! k = Some entry ∧ condition entry = true
                          ∧ PycacheEntry.value entry = v
  | Raise e =>
      e = NoMatches ∧ ∀ k entry, self !! k = Some entry → condition entry = false
  end.
Proof.
  rewrite find_matching. case_decide as Hempty.
  - split; [done|]. by apply matching_empty_iff.
  - split; [done|]. intros k v. apply matching_lookup_Some.
Qed.

Lemma result_set_find (self : gmap key PycacheEntry.t) condition :
  result_set (Pycache.find self condition) = matching self condition.
Proof. rewrite find_matching. by case_decide as Hempty; [rewrite Hempty|]. Qed.

Lemma is_immutable_declared self :
  PycacheEntry.is_immutable self = true
  ↔ PycacheEntry._value_instance self
    ∈ [t_int; t_str; t_float; t_complex; t_bool; t_tuple; t_frozenset].
Proof.
  unfold PycacheEntry.is_immutable.
  destruct (PycacheEntry._value_instance self); simpl;
    (split; [intros H; try done; repeat constructor|intros H; try done]).
  repeat (apply elem_of_cons in H as [?|H]; [done|]).
  by apply elem_of_nil in H.
Qed.

(** X11.  The result sets of [mutable()] and [immutable()], a no-matches
    failure read as the empty set, are disjoint and together hold every
    entry of the cache; an entry is in the immutable one exactly when its
    declared type is one of the seven scalar types, whatever value it
    stores. *)
Theorem mutable_immutable_partition (self : gmap key PycacheEntry.t) :
  result_set (Pycache.mutable self) ##ₘ result_set (Pycache.immutable self)
  ∧ result_set (Pycache.mutable self) ∪ result_set (Pycache.immutable self)
    = PycacheEntry.value <$> self
  ∧ ∀ k v, result_set (Pycache.immutable self) !! k = Some v
           ↔ ∃ entry, self !! k = Some entry ∧ PycacheEntry.value entry = v
                      ∧ PycacheEntry._value_instance entry
                        ∈ [t_int; t_str; t_float; t_complex; t_bool; t_tuple; t_frozenset].
Proof.
  unfold Pycache.mutable, Pycache.immutable. rewrite !result_set_find. split_and!.
  - apply map_disjoint_spec. intros k v1 v2. rewrite !matching_lookup_Some.
    intros (e1 & Hk1 & Hc1 & _) (e2 & Hk2 & Hc2 & _). simplify_eq.
    rewrite Hc2 in Hc1. done.
  - apply map_eq. intros k. unfold matching.
    rewrite lookup_union, !lookup_omap, lookup_fmap.
    destruct (self !! k) as [entry|]; simpl; [|done].
    by destruct (PycacheEntry.is_immutable entry).
  - intros k v. rewrite matching_lookup_Some.
    split; intros (entry & Hk & H1 & H2); exists entry; split_and!; try done.
    + by apply is_immutable_declared.
    + by apply is_immutable_declared.
Qed.

(** * More on [add], [update] and [remove] of [Pycache] *)

(** What [add] can leave: the cache as it was with an exception, or the new
    entry in the place of one that was there. *)
Lemma add_cases rt now (self : gmap key PycacheEntry.t) sf entry fetched_time max_age T :
  (∃ e, Pycache.add rt now self sf entry fetched_time max_age T = (self, Raise e))
  ∨ (∃ stored r,
       self !! KInt (Snowflake.snowflake sf) = Some stored
       ∧ Pycache.add rt now self sf entry fetched_time max_age T
         = (<[KInt (Snowflake.snowflake sf)
               := PycacheEntry.__init__ now sf entry fetched_time max_age T]> self, r)).
Proof.
  unfold Pycache.add, Pycache.get. simpl.
  destruct (self !! KInt (Snowflake.snowflake sf)) as [stored|] eqn:Hk; [|eauto].
  destruct (truthy rt (PycacheEntry.value stored)); simpl; [eauto|].
  rewrite lookup_insert_eq. eauto.
Qed.

(** What [Pycache.update] can leave: the cache as it was with an exception,
    or the entry of the identifier with the value its [update] left. *)
Lemma Pycache_update_cases rt (self : gmap key PycacheEntry.t) idx entry fetched_time :
  (∃ e, Pycache.update rt self idx entry fetched_time = (self, Raise e))
  ∨ (∃ mutated r,
       Pycache.update rt self idx entry fetched_time
       = (alter (λ e, PycacheEntry.setattr_value e mutated) idx self, r)).
Proof.
  unfold Pycache.update, Pycache.get.
  destruct (self !! idx) as [stored|]; [|eauto].
  destruct (getattr_update rt (PycacheEntry.value stored)) as [[x|call]|]; [eauto| |eauto].
  destruct (call [entry; VInt fetched_time]) as [mutated r]. eauto.
Qed.

(** What [remove] can leave: the cache as it was, or the cache without one
    entry that was there; it raises in both cases. *)
Lemma remove_cases rt (self : gmap key PycacheEntry.t) snowflake :
  ∃ e,
    Pycache.remove rt self snowflake = (self, Raise e)
    ∨ ∃ k stored, self !! k = Some stored
                  ∧ Pycache.remove rt self snowflake = (delete k self, Raise e).
Proof.
  assert (∀ k, ∃ self' raised, Pycache.pop_if_found rt self k = (self', raised)
               ∧ (self' = self ∨ ∃ stored, self !! k = Some stored ∧ self' = delete k self))
    as Hpop.
  { intros k. unfold Pycache.pop_if_found, Pycache.get.
    destruct (self !! k) as [stored|] eqn:Hk; [|eauto].
    destruct (truthy rt (PycacheEntry.value stored)); eauto 8. }
  unfold Pycache.remove.
  destruct (Pycache.hasattr_snowflake snowflake) as [id|].
  - destruct (Hpop (KInt id)) as (self' & raised & -> & [->|(stored & Hk & ->)]);
      destruct raised; eauto 8.
  - destruct (isinstance rt snowflake t_str || isinstance rt snowflake t_int);
      [|eauto].
    destruct (dict_key rt snowflake) as [k|]; [|eauto].
    destruct (Hpop k) as (self' & raised & -> & [->|(stored & Hk & ->)]);
      destruct raised; eauto 8.
Qed.

Lemma after_dom rt (self : gmap key PycacheEntry.t) c :
  dom (after rt self c) ⊆ dom self.
Proof.
  destruct c as [now sf entry ft ma T|idx entry ft|snowflake]; simpl.
  - destruct (add_cases rt now self sf entry ft ma T) as [(e & ->)|(stored & r & Hk & ->)];
      simpl; [done|].
    rewrite dom_insert_L. apply elem_of_dom_2 in Hk.
    apply union_least; [by apply singleton_subseteq_l|done].
  - destruct (Pycache_update_cases rt self idx entry ft) as [(e & ->)|(mutated & r & ->)];
      simpl; [done|].
    by rewrite dom_alter_L.
  - destruct (remove_cases rt self snowflake) as (e & [->|(k & stored & Hk & ->)]);
      simpl; [done|].
    rewrite dom_delete_L. by apply subseteq_difference_l.
Qed.

(** X12.  No sequence of calls of [add], [update] and [remove], returning
    or raising, brings an identifier into the cache that was not there: the
    keys after the calls are among the keys before.  A cache that starts
    empty, as the constructor leaves it, stays empty under these calls. *)
Theorem calls_never_add_an_identifier rt (cs : list call) :
  (∀ self : gmap key PycacheEntry.t,
     PycacheDict.keys (after_all rt self cs) ⊆ PycacheDict.keys self)
  ∧ after_all rt PycacheDict.__init__ cs = PycacheDict.__init__.
Proof.
  unfold PycacheDict.keys.
  assert (∀ self : gmap key PycacheEntry.t, dom (after_all rt self cs) ⊆ dom self) as Hdom.
  { unfold after_all. induction cs as [|c cs IH]; intros self; simpl; [done|].
    etrans; [apply IH|apply after_dom]. }
  split; [done|].
  apply dom_empty_iff_L. specialize (Hdom PycacheDict.__init__).
  unfold PycacheDict.__init__ in *. rewrite dom_empty_L in Hdom. set_solver.
Qed.

Lemma after_filed_by_idx rt (self : gmap key PycacheEntry.t) c :
  filed_by_idx self → filed_by_idx (after rt self c).
Proof.
  intros Hfiled k entry'.
  destruct c as [now sf entry ft ma T|idx entry ft|snowflake]; simpl.
  - destruct (add_cases rt now self sf entry ft ma T) as [(e & ->)|(stored & r & Hk & ->)];
      simpl; [apply Hfiled|].
    destruct (decide (KInt (Snowflake.snowflake sf) = k)) as [<-|Hne].
    + rewrite lookup_insert_eq. by intros [= <-].
    + rewrite lookup_insert_ne by done. apply Hfiled.
  - destruct (Pycache_update_cases rt self idx entry ft) as [(e & ->)|(mutated & r & ->)];
      simpl; [apply Hfiled|].
    destruct (decide (idx = k)) as [<-|Hne].
    + rewrite lookup_alter_eq.
      destruct (self !! idx) as [stored|] eqn:Hk; simpl; [|done].
      intros [= <-]. by apply (Hfiled idx stored).
    + rewrite lookup_alter_ne by done. apply Hfiled.
  - destruct (remove_cases rt self snowflake) as (e & [->|(k' & stored & Hk & ->)]);
      simpl; [apply Hfiled|].
    intros Hl. apply lookup_delete_Some in Hl as [_ Hl]. by apply Hfiled.
Qed.

(** X13.  In a cache where every entry is filed under its own identifier,
    every entry still is after any sequence of calls of [add], [update]
    and [remove]. *)
Theorem calls_keep_entries_filed_by_idx rt (self : gmap key PycacheEntry.t) (cs : list call) :
  filed_by_idx self → filed_by_idx (after_all rt self cs).
Proof.
  unfold after_all. revert self.
  induction cs as [|c cs IH]; intros self Hfiled; simpl; [done|].
  by apply IH, after_filed_by_idx.
Qed.

Lemma calls_keep_entries_filed_by_idx_witness :
  filed_by_idx
    (after_all demo_rt {[ KInt 7 := entry_of 7 (VInt 0) (Some 0) t_int ]}
       [call_add 50 (flake 7) (VInt 5) 50 (Some 0) t_int;
        call_update (KInt 7) (VInt 9) 100;
        call_remove (VStr "7")]).
Proof.
  apply (calls_keep_entries_filed_by_idx demo_rt).
  intros k entry Hk. apply lookup_singleton_Some in Hk as [<- <-]. reflexivity.
Defined.

(** X14.  [Pycache.update], returning or raising, leaves the fetched time
    of every entry as it was, so the identifiers [stale()] holds are the
    same after the call as before; and it leaves every entry but the one of
    its identifier untouched. *)
Theorem Pycache_update_never_refreshes rt (self : gmap key PycacheEntry.t)
    idx entry fetched_time now :
  PycacheEntry._fetched_time <$> (Pycache.update rt self idx entry fetched_time).1
  = PycacheEntry._fetched_time <$> self
  ∧ dom (result_set (Pycache.stale now (Pycache.update rt self idx entry fetched_time).1))
    = dom (result_set (Pycache.stale now self))
  ∧ ∀ k, k ≠ idx → (Pycache.update rt self idx entry fetched_time).1 !! k = self !! k.
Proof.
  destruct (Pycache_update_cases rt self idx entry fetched_time)
    as [(e & ->)|(mutated & r & ->)]; simpl; [done|].
  assert (∀ k, PycacheEntry.is_stale now
                 <$> alter (λ e, PycacheEntry.setattr_value e mutated) idx self !! k
               = PycacheEntry.is_stale now <$> self !! k) as Hstale.
  { intros k. destruct (decide (idx = k)) as [<-|Hne].
    - rewrite lookup_alter_eq. by destruct (self !! idx).
    - by rewrite lookup_alter_ne. }
  split_and!.
  - apply map_eq. intros k. rewrite !lookup_fmap.
    destruct (decide (idx = k)) as [<-|Hne].
    + rewrite lookup_alter_eq. by destruct (self !! idx).
    + by rewrite lookup_alter_ne.
  - unfold Pycache.stale. rewrite !result_set_find.
    apply set_eq. intros k. rewrite !elem_of_dom. unfold matching.
    rewrite !lookup_omap. specialize (Hstale k).
    destruct (alter _ idx self !! k) as [e1|], (self !! k) as [e2|]; simplify_eq/=;
      [|done]. rewrite Hstale. by destruct (PycacheEntry.is_stale now e2).
  - intros k Hne. by rewrite lookup_alter_ne.
Qed.




(** X17.  For an identifier the cache does not hold, [get], [update] and
    [remove] (with the raw identifier, and with a [Snowflake] of an integer
    identifier) raise the not-found error of [get], [pop] raises [KeyError],
    and each leaves the cache as it was. *)
Theorem missing_identifier rt (self : gmap key PycacheEntry.t) raw k :
  as_key raw = Some k →
  self !! k = None →
  Pycache.get self k = Raise (NotFound k)
  ∧ (∀ entry fetched_time,
       Pycache.update rt self k entry fetched_time = (self, Raise (NotFound k)))
  ∧ Pycache.remove rt self raw = (self, Raise (NotFound k))
  ∧ (∀ sf, k = KInt (Snowflake.snowflake sf) →
       Pycache.remove rt self (VSnowflake sf) = (self, Raise (NotFound k)))
  ∧ PycacheDict.pop self k = (self, PycacheDict.KeyError k).
Proof.
  intros Hraw Habsent. split_and!.
  - by apply get_None.
  - intros entry fetched_time. unfold Pycache.update. by rewrite get_None.
  - unfold Pycache.remove, Pycache.pop_if_found.
    destruct raw; simplify_eq/=; by rewrite get_None.
  - intros sf ->. unfold Pycache.remove, Pycache.pop_if_found. simpl.
    by rewrite get_None.
  - unfold PycacheDict.pop. by rewrite Habsent.
Qed.

Lemma missing_identifier_witness :
  Pycache.get {[ KInt 1 := entry_of 1 (VStr "hello") (Some 0) t_str ]} (KStr "1")
  = Raise (NotFound (KStr "1"))
  ∧ Pycache.remove demo_rt {[ KInt 1 := entry_of 1 (VStr "hello") (Some 0) t_str ]} (VStr "1")
    = ({[ KInt 1 := entry_of 1 (VStr "hello") (Some 0) t_str ]}, Raise (NotFound (KStr "1"))).
Proof.
  destruct (missing_identifier demo_rt {[ KInt 1 := entry_of 1 (VStr "hello") (Some 0) t_str ]}
              (VStr "1") (KStr "1") eq_refl)
    as (Hget & _ & Hremove & _).
  - by apply lookup_singleton_ne.
  - split; [exact Hget|exact Hremove].
Defined.

(** X18.  [remove] tests the truth value of what [get] returns: an entry
    whose stored value is falsy is not removed, by the raw identifier or by
    a [Snowflake], and the call raises the bad-identifier-type error. *)
Theorem remove_keeps_falsy_entry rt (self : gmap key PycacheEntry.t) raw k stored :
  as_key raw = Some k →
  self !! k = Some stored →
  truthy rt (PycacheEntry.value stored) = false →
  Pycache.remove rt self raw = (self, Raise (BadIdentifierType (type_of raw)))
  ∧ (∀ sf, k = KInt (Snowflake.snowflake sf) →
       Pycache.remove rt self (VSnowflake sf)
       = (self, Raise (BadIdentifierType (t_class "Snowflake")))).
Proof.
  intros Hraw Hfound Hfalsy. split.
  - unfold Pycache.remove, Pycache.pop_if_found.
    destruct raw; simplify_eq/=; by rewrite (get_Some _ _ _ Hfound), Hfalsy.
  - intros sf ->. unfold Pycache.remove, Pycache.pop_if_found. simpl.
    by rewrite (get_Some _ _ _ Hfound), Hfalsy.
Qed.

Lemma remove_keeps_falsy_entry_witness :
  Pycache.remove demo_rt {[ KInt 7 := entry_of 7 (VInt 0) (Some 0) t_int ]} (VInt 7)
  = ({[ KInt 7 := entry_of 7 (VInt 0) (Some 0) t_int ]}, Raise (BadIdentifierType t_int)).
Proof.
  apply (remove_keeps_falsy_entry demo_rt _ (VInt 7) (KInt 7)
           (entry_of 7 (VInt 0) (Some 0) t_int)).
  - reflexivity.
  - apply lookup_singleton_eq.
  - reflexivity.
Defined.

(** X19.  [add] with an identifier whose entry stores a truthy value raises
    the duplicate-key error and leaves the cache as it was: [get] returns
    the value that was stored, not the one passed to [add]. *)
Theorem add_duplicate_is_refused rt now (self : gmap key PycacheEntry.t)
    sf entry fetched_time max_age T stored :
  self !! KInt (Snowflake.snowflake sf) = Some stored →
  truthy rt (PycacheEntry.value stored) = true →
  ∃ self',
    Pycache.add rt now self sf entry fetched_time max_age T
    = (self', Raise (DuplicateKey (Snowflake.snowflake sf)))
    ∧ self' = self
    ∧ Pycache.get self' (KInt (Snowflake.snowflake sf)) = Return (PycacheEntry.value stored).
Proof.
  intros Hfound Htruthy. exists self. split_and!; [|done|by apply get_Some].
  by apply (add_duplicate_truthy rt now self sf entry fetched_time max_age T stored).
Qed.

Lemma add_duplicate_is_refused_witness :
  ∃ self',
    Pycache.add demo_rt 50 {[ KInt 1001 := entry_of 1001 (VStr "hello") (Some 0) t_str ]}
      (flake 1001) (VStr "bye") 50 (Some 0) t_str
    = (self', Raise (DuplicateKey 1001))
    ∧ self' = {[ KInt 1001 := entry_of 1001 (VStr "hello") (Some 0) t_str ]}
    ∧ Pycache.get self' (KInt 1001) = Return (VStr "hello").
Proof.
  apply (add_duplicate_is_refused demo_rt 50 _ (flake 1001) (VStr "bye") 50 (Some 0) t_str
           (entry_of 1001 (VStr "hello") (Some 0) t_str)).
  - apply lookup_singleton_eq.
  - reflexivity.
Defined.

(** * The [dict] wrappers *)

(** X20.  After [setdefault(prop, val)], [get(prop)] returns the value of
    the entry [setdefault] returned: the entry that was there, in a cache
    left as it was, or else [val], now in the cache; [get] succeeds
    whether that value is truthy or not. *)
Theorem setdefault_then_get (self : gmap key PycacheEntry.t) prop val :
  Pycache.get (PycacheDict.setdefault self prop val).1 prop
  = Return (PycacheEntry.value (PycacheDict.setdefault self prop val).2)
  ∧ (∀ entry, self !! prop = Some entry →
       PycacheDict.setdefault self prop val = (self, entry))
  ∧ (self !! prop = None →
       PycacheDict.setdefault self prop val = (<[prop := val]> self, val)).
Proof.
  unfold PycacheDict.setdefault. split_and!.
  - destruct (self !! prop) as [entry|] eqn:Hk; simpl.
    + by apply get_Some.
    + apply get_Some, lookup_insert_eq.
  - by intros entry ->.
  - by intros ->.
Qed.

(** X21.  [pop] of an identifier the cache holds returns the entry itself
    and removes it: [get] then raises the not-found error, the cache has
    one entry less, and the other entries are as before. *)
Theorem pop_present (self : gmap key PycacheEntry.t) idx entry :
  self !! idx = Some entry →
  ∃ self',
    PycacheDict.pop self idx = (self', PycacheDict.Ok entry)
    ∧ Pycache.get self' idx = Raise (NotFound idx)
    ∧ S (Pycache.length self') = Pycache.length self
    ∧ ∀ k, k ≠ idx → self' !! k = self !! k.
Proof.
  intros Hfound. exists (delete idx self). unfold PycacheDict.pop, Pycache.length.
  rewrite Hfound. split_and!; [done| | |].
  - apply get_None, lookup_delete_eq.
  - rewrite map_size_delete, Hfound.
    assert (size self ≠ 0%nat) by (apply map_size_non_empty_iff; by intros ->).
    lia.
  - intros k Hne. by apply lookup_delete_ne.
Qed.

Lemma pop_present_witness :
  ∃ self',
    PycacheDict.pop {[ KInt 1 := entry_of 1 (VStr "hello") (Some 0) t_str ]} (KInt 1)
    = (self', PycacheDict.Ok (entry_of 1 (VStr "hello") (Some 0) t_str))
    ∧ Pycache.get self' (KInt 1) = Raise (NotFound (KInt 1))
    ∧ S (Pycache.length self')
      = Pycache.length {[ KInt 1 := entry_of 1 (VStr "hello") (Some 0) t_str ]}
    ∧ ∀ k, k ≠ KInt 1 →
           self' !! k = ({[ KInt 1 := entry_of 1 (VStr "hello") (Some 0) t_str ]}
                         : gmap key PycacheEntry.t) !! k.
Proof.
  apply (pop_present _ (KInt 1) (entry_of 1 (VStr "hello") (Some 0) t_str)).
  apply lookup_singleton_eq.
Defined.

(** X22.  [setdefault] of an identifier the cache does not hold, then [pop]
    of that identifier, gives back the entry and the cache as it was; with
    a truthy value, [remove] of that identifier gives the cache back too. *)
Theorem setdefault_then_pop rt (self : gmap key PycacheEntry.t) raw prop val :
  as_key raw = Some prop →
  self !! prop = None →
  PycacheDict.pop (PycacheDict.setdefault self prop val).1 prop = (self, PycacheDict.Ok val)
  ∧ (truthy rt (PycacheEntry.value val) = true →
     (Pycache.remove rt (PycacheDict.setdefault self prop val).1 raw).1 = self).
Proof.
  intros Hraw Habsent. unfold PycacheDict.setdefault. rewrite Habsent. simpl. split.
  - unfold PycacheDict.pop. rewrite lookup_insert_eq. by rewrite delete_insert_id.
  - intros Htruthy. unfold Pycache.remove, Pycache.pop_if_found.
    destruct raw; simplify_eq/=;
      rewrite (get_Some _ _ val) by apply lookup_insert_eq;
      rewrite Htruthy; simpl; by rewrite delete_insert_id.
Qed.

Lemma setdefault_then_pop_witness :
  PycacheDict.pop
    (PycacheDict.setdefault ∅ (KInt 1) (entry_of 1 (VStr "hello") (Some 0) t_str)).1 (KInt 1)
  = (∅, PycacheDict.Ok (entry_of 1 (VStr "hello") (Some 0) t_str))
  ∧ (Pycache.remove demo_rt
       (PycacheDict.setdefault ∅ (KInt 1) (entry_of 1 (VStr "hello") (Some 0) t_str)).1
       (VInt 1)).1 = ∅.
Proof.
  destruct (setdefault_then_pop demo_rt ∅ (VInt 1) (KInt 1)
              (entry_of 1 (VStr "hello") (Some 0) t_str) eq_refl (lookup_empty _))
    as [Hpop Hremove].
  split; [exact Hpop|]. apply Hremove. reflexivity.
Defined.

(** X23.  After [clear] the cache is empty: its length is zero, [get]
    raises the not-found error for every identifier, and [find] raises the
    no-matches error for every condition. *)
Theorem clear_empties (self : gmap key PycacheEntry.t) :
  Pycache.length (PycacheDict.clear self).1 = 0%nat
  ∧ (∀ k, Pycache.get (PycacheDict.clear self).1 k = Raise (NotFound k))
  ∧ (∀ condition, Pycache.find (PycacheDict.clear self).1 condition = Raise NoMatches).
Proof.
  unfold PycacheDict.clear. simpl. split_and!.
  - apply map_size_empty.
  - intros k. apply get_None, lookup_empty.
  - intros condition. rewrite find_matching.
    rewrite decide_True; [done|]. apply matching_empty_iff.
    intros k entry Hk. by rewrite lookup_empty in Hk.
Qed.


(** X8.  As the clock advances and nothing is updated, the result set of
    [stale()] only grows and the one of [fresh()] only shrinks. *)
Theorem stale_view_grows_with_time now now' (self : gmap key PycacheEntry.t) :
  now ≤ now' →
  result_set (Pycache.stale now self) ⊆ result_set (Pycache.stale now' self)
  ∧ result_set (Pycache.fresh now' self) ⊆ result_set (Pycache.fresh now self).
Proof.
  intros Hle. unfold Pycache.stale, Pycache.fresh. rewrite !result_set_find.
  split; apply map_subseteq_spec; intros k v; rewrite !matching_lookup_Some;
    intros (entry & Hk & Hc & Hv); exists entry; split_and!; try done.
  - by apply (is_stale_later now now').
  - destruct (PycacheEntry.is_stale now entry) eqn:Hs; [|done].
    by rewrite (is_stale_later now now' entry Hle Hs) in Hc.
Qed.

Lemma stale_view_grows_with_time_witness :
  result_set (Pycache.stale 4000
                {[ KInt 2 := entry_of 2 (VStr "hello") (Some 5000) t_str ]})
  ⊆ result_set (Pycache.stale 6000
                  {[ KInt 2 := entry_of 2 (VStr "hello") (Some 5000) t_str ]})
  ∧ result_set (Pycache.fresh 6000
                  {[ KInt 2 := entry_of 2 (VStr "hello") (Some 5000) t_str ]})
    ⊆ result_set (Pycache.fresh 4000
                    {[ KInt 2 := entry_of 2 (VStr "hello") (Some 5000) t_str ]}).
Proof.
  apply (stale_view_grows_with_time 4000 6000). lia.
Defined.
